(** * The Azure agent's top-level chat router

    A shallow embedding of [src/chat/agent.ts] (the composition root: the
    three slash-command owners, [handler], [followUpProvider] and
    [getCommands]) and of the contract types of the agent's public API
    ([SkillCommandResult], [SkillCommandResultMetadata], [BaseCommandConfig]).

    JavaScript objects that are mutated through a shared reference (the
    result object an owner hands to the router) live in an explicit heap;
    asynchronous calls are awaited one after the other in the source, so they
    are modelled as sequential state transformers that either return or
    throw.

    The router is stated over arbitrary implementations of
    [IAgentRequestHandler]. The owners themselves ([SlashCommandsOwner],
    slashCommands.ts) are modelled in the module [SlashCommands] from their
    specification: registry, dispatch resolver and execution coordinator. *)

From stdpp Require Import base option list strings gmap pretty.
From Stdlib Require Import ZArith Lia.

Open Scope Z_scope.

(** ** JavaScript primitives used by the router *)

Module JS.

(** Errors that can be thrown (or promises rejected with). *)
Inductive Error : Type :=
| TypeError (msg : string)
| UserError (msg : string).

(** Completion of a call: a normal return or a throw. *)
Inductive Outcome (A : Type) : Type :=
| Returned (a : A)
| Threw (e : Error).
Arguments Returned {A} a.
Arguments Threw {A} e.

(** Relative index of [Array.prototype.slice]: a negative index counts from
    the end, and the result is clamped to [0, len]. *)
Definition relative_index (len i : Z) : Z :=
  if i <? 0 then Z.max (len + i) 0 else Z.min i len.

(** [xs.slice(start, end)]. *)
Definition slice {A : Type} (xs : list A) (start end_ : Z) : list A :=
  let len := Z.of_nat (length xs) in
  let k := relative_index len start in
  let final := relative_index len end_ in
  take (Z.to_nat (final - k)) (drop (Z.to_nat k) xs).

(** [x || y] where [x] is an array or [undefined]: every array, the empty
    one included, is truthy. *)
Definition or_else {A : Type} (x : option (list A)) (y : list A)
  : option (list A) :=
  match x with
  | Some xs => Some xs
  | None => Some y
  end.

End JS.

Import JS.

(** ** The parts of the [vscode] chat API the router touches *)

Module vscode.

Record ChatFollowup : Type := { prompt_text : string; label : option string }.

Record CancellationToken : Type := { isCancellationRequested : bool }.

(** The history of the conversation. *)
Record ChatContext : Type := { history : list string }.

Record ChatRequest : Type := { prompt : string; command : option string }.

Record ChatCommand : Type := { name : string; description : string }.

(** What can be pushed on a [ChatExtendedResponseStream]. *)
Inductive ResponsePart : Type :=
| progress (value : string)
| markdown (value : string)
| button (commandId : string).

End vscode.

(** ** Contract types of the agent API *)

(** [SkillCommandResultMetadata]: both known fields are optional; the index
    signature is kept as a map of the additional keys. *)
Record SkillCommandResultMetadata : Type := {
  handlerChain : option (list string);
  resultId : option string;
  additional : gmap string string;
}.

(** A chat result together with the agent's metadata, when it has any. *)
Record ChatResult : Type := {
  errorDetails : option string;
  metadata : option SkillCommandResultMetadata;
}.

(** [SkillCommandResult]; [SlashCommandHandlerResult] is this or [undefined]. *)
Record SkillCommandResult : Type := {
  chatAgentResult : ChatResult;
  followUp : option (list vscode.ChatFollowup);
}.

Inductive CommandType : Type := wizard | simple | skill.

(** [BaseCommandConfig], with the [type] tag of its three variants. *)
Record BaseCommandConfig : Type := {
  name : string;
  commandId : string;
  displayName : string;
  intentDescription : option string;
  requiresWorkspaceOpen : option bool;
  requiresAzureLogin : option bool;
  type : CommandType;
}.

(** [AgentRequest]. The response stream is the process' single output sink;
    writes to it are recorded in the trace of the run rather than in a field
    of the request. *)
Record AgentRequest : Type := {
  command : option string;
  userPrompt : string;
  context : vscode.ChatContext;
  token : vscode.CancellationToken;
}.

(** ** Heap of result objects *)

(** A reference to a [SkillCommandResult] object. *)
Definition loc : Type := nat.

(** The store a call runs in: the heap of result objects, shared by the
    router and the owners, and the private state [S] of the owners. *)
Record Store (S : Type) : Type := {
  heap : gmap nat SkillCommandResult;
  priv : S;
}.
Arguments heap {S} _.
Arguments priv {S} _.

(** What an owner or a command handler can do to the outside world while it
    runs. *)
Inductive Effect : Type :=
| Wrote (part : vscode.ResponsePart)
| Classify (prompt : string) (candidates : list string)
| Invoke (name : string) (chain : list string)
| Log (e : Error).

(** ** [IAgentRequestHandler] *)

Record IAgentRequestHandler (S : Type) : Type := {
  handleRequestOrPrompt :
    AgentRequest -> list string -> Store S ->
    Outcome (option loc) * list Effect * Store S;
  getFollowUpForLastHandledSlashCommand :
    ChatResult -> vscode.CancellationToken -> Store S ->
    Outcome (option (list vscode.ChatFollowup)) * Store S;
}.
Arguments handleRequestOrPrompt {S} _ _ _ _.
Arguments getFollowUpForLastHandledSlashCommand {S} _ _ _ _.

(** Modelled from the spec: [SlashCommandConfig] is declared in
    slashCommands.ts, which is not among the sources. [getCommands] reads its
    [shortDescription]; the remaining fields are the descriptor of the
    command (name, commandId, displayName, intent description, gating flags
    and type), which the sources declare as [BaseCommandConfig]. *)
Record SlashCommandConfig : Type := {
  shortDescription : string;
  descriptor : BaseCommandConfig;
}.

(** A [SlashCommandsOwner] as the router sees it: a request handler that can
    also enumerate its invokeable commands, in the order of its registry. *)
Record SlashCommandsOwner (S : Type) : Type := {
  asHandler : IAgentRequestHandler S;
  getSlashCommands : list (string * SlashCommandConfig);
}.
Arguments asHandler {S} _.
Arguments getSlashCommands {S} _.

(** ** The composition root of [agent.ts] *)

(** The three module-level owners. *)
Record Agent (S : Type) : Type := {
  agentSlashCommandsOwner : SlashCommandsOwner S;
  agentBenchmarker : IAgentRequestHandler S;
  agentHiddenSlashCommandsOwner : SlashCommandsOwner S;
}.
Arguments agentSlashCommandsOwner {S} _.
Arguments agentBenchmarker {S} _.
Arguments agentHiddenSlashCommandsOwner {S} _.

(** Names for the three owners, used to record who was called. *)
Inductive OwnerName : Type := hiddenOwner | benchmarker | visibleOwner.

Global Instance OwnerName_eq_dec : EqDecision OwnerName.
Proof. solve_decision. Defined.

(** One observable step of a run of the router. *)
Inductive Event : Type :=
| Eff (e : Effect)
| CallHandleRequestOrPrompt (o : OwnerName) (request : AgentRequest)
    (chain : list string)
| CallGetFollowUp (o : OwnerName) (result : ChatResult).

(** The state of a run: the store and the events so far, oldest first. *)
Record World (S : Type) : Type := {
  store : Store S;
  trace : list Event;
}.
Arguments store {S} _.
Arguments trace {S} _.

(** The router's computations: state passing, with throws propagated. *)
Definition Run (S A : Type) : Type := World S -> Outcome A * World S.

Definition ret {S A : Type} (a : A) : Run S A := fun w => (Returned a, w).

Definition bind {S A B : Type} (m : Run S A) (k : A -> Run S B) : Run S B :=
  fun w =>
    match m w with
    | (Returned a, w') => k a w'
    | (Threw e, w') => (Threw e, w')
    end.

Notation "'let*' x ':=' m 'in' k" := (bind m (fun x => k))
  (at level 10, x name, m at level 100, k at level 200).

Definition emit {S : Type} (evs : list Event) : Run S unit :=
  fun w => (Returned tt, {| store := store w; trace := trace w ++ evs |}).

(** Property read on a reference; a reference that designates no object
    behaves like a non-object value, whose property access throws. *)
Definition deref {S : Type} (l : loc) : Run S SkillCommandResult :=
  fun w =>
    match heap (store w) !! l with
    | Some obj => (Returned obj, w)
    | None => (Threw (TypeError "Cannot read properties"), w)
    end.

(** Assignment to the object behind a reference. *)
Definition assign {S : Type} (l : loc) (obj : SkillCommandResult) : Run S unit :=
  fun w =>
    (Returned tt,
     {| store := {| heap := <[l := obj]> (heap (store w));
                    priv := priv (store w) |};
        trace := trace w |}).

Section Router.

Context {S : Type}.

(** [maxFollowUps] comes from [agentConsts], which is not among the
    sources; it is a parameter of the router. *)
Variable maxFollowUps : Z.

Variable agent : Agent S.

Definition owner (o : OwnerName) : IAgentRequestHandler S :=
  match o with
  | hiddenOwner => asHandler (agentHiddenSlashCommandsOwner agent)
  | benchmarker => agentBenchmarker agent
  | visibleOwner => asHandler (agentSlashCommandsOwner agent)
  end.

(** [await handler.handleRequestOrPrompt(agentRequest, chain)]. *)
Definition callHandleRequestOrPrompt (o : OwnerName) (request : AgentRequest)
    (chain : list string) : Run S (option loc) :=
  fun w =>
    match handleRequestOrPrompt (owner o) request chain (store w) with
    | (out, effs, s') =>
        (out,
         {| store := s';
            trace := trace w ++ CallHandleRequestOrPrompt o request chain
                       :: map Eff effs |})
    end.

(** The loop of [handler]: each owner is awaited in turn with an empty
    handler chain, and the loop is left at the first result that is not
    [undefined]. *)
Fixpoint tryHandlers (handlers : list OwnerName) (agentRequest : AgentRequest)
    : Run S (option loc) :=
  match handlers with
  | [] => ret None
  | h :: rest =>
      let* handleResult := callHandleRequestOrPrompt h agentRequest [] in
      match handleResult with
      | Some l => ret (Some l)
      | None => tryHandlers rest agentRequest
      end
  end.

Definition handlers : list OwnerName := [hiddenOwner; benchmarker; visibleOwner].

Definition setFollowUp (obj : SkillCommandResult)
    (f : option (list vscode.ChatFollowup)) : SkillCommandResult :=
  {| chatAgentResult := chatAgentResult obj; followUp := f |}.

(** The [agentRequest] that [handler] builds from its arguments. *)
Definition agentRequestOf (request : vscode.ChatRequest)
    (context : vscode.ChatContext) (token : vscode.CancellationToken)
    : AgentRequest :=
  {| command := vscode.command request;
     userPrompt := vscode.prompt request;
     context := context;
     token := token |}.

(** [handler] of agent.ts. *)
Definition handler (request : vscode.ChatRequest) (context : vscode.ChatContext)
    (token : vscode.CancellationToken) : Run S (option ChatResult) :=
  let agentRequest := agentRequestOf request context token in
  let* _ := emit [Eff (Wrote (vscode.progress "Processing request..."))] in
  let* handleResult := tryHandlers handlers agentRequest in
  match handleResult with
  | Some l =>
      let* obj := deref l in
      let* _ := assign l (setFollowUp obj
                  ((fun f => slice f 0 maxFollowUps) <$> followUp obj)) in
      ret (Some (chatAgentResult obj))
  | None => ret None
  end.

(** [provider.getFollowUpForLastHandledSlashCommand(result, token)]. *)
Definition callGetFollowUp (o : OwnerName) (result : ChatResult)
    (token : vscode.CancellationToken)
    : Run S (option (list vscode.ChatFollowup)) :=
  fun w =>
    match getFollowUpForLastHandledSlashCommand (owner o) result token (store w) with
    | (out, s') =>
        (out, {| store := s'; trace := trace w ++ [CallGetFollowUp o result] |})
    end.

Fixpoint tryProviders (providers : list OwnerName) (result : ChatResult)
    (token : vscode.CancellationToken)
    : Run S (option (list vscode.ChatFollowup)) :=
  match providers with
  | [] => ret None
  | p :: rest =>
      let* followUp := callGetFollowUp p result token in
      match followUp with
      | Some f => ret (Some f)
      | None => tryProviders rest result token
      end
  end.

Definition providers : list OwnerName := [hiddenOwner; benchmarker; visibleOwner].

(** [followUpProvider] of agent.ts; the result type keeps [undefined] as a
    possible value, as [vscode.ProviderResult] does. *)
Definition followUpProvider (result : ChatResult) (token : vscode.CancellationToken)
    : Run S (option (list vscode.ChatFollowup)) :=
  let* followUp := tryProviders providers result token in
  ret (or_else followUp []).

(** [getCommands] of agent.ts. *)
Definition getCommands (_token : vscode.CancellationToken)
    : list vscode.ChatCommand :=
  map (fun '(name, config) =>
         {| vscode.name := name;
            vscode.description := shortDescription config |})
      (getSlashCommands (agentSlashCommandsOwner agent)).

(** The owners that were called, in order, among some events. *)
Definition calledOwners (evs : list Event) : list OwnerName :=
  omap (fun ev =>
          match ev with
          | CallHandleRequestOrPrompt o _ _ => Some o
          | _ => None
          end) evs.

Definition consultedOwners (evs : list Event) : list OwnerName :=
  omap (fun ev =>
          match ev with
          | CallGetFollowUp o _ => Some o
          | _ => None
          end) evs.

(** [unresolvedBy request os s evs s']: called one after the other from
    the store [s] with an empty chain, every owner of [os] returned
    [undefined]; [evs] are the events of these calls and [s'] is the store
    they leave. *)
Inductive unresolvedBy (request : AgentRequest)
    : list OwnerName -> Store S -> list Event -> Store S -> Prop :=
| unresolvedBy_nil s : unresolvedBy request [] s [] s
| unresolvedBy_cons o os s effs s1 evs s2 :
    handleRequestOrPrompt (owner o) request [] s = (Returned None, effs, s1) ->
    unresolvedBy request os s1 evs s2 ->
    unresolvedBy request (o :: os) s
      (CallHandleRequestOrPrompt o request [] :: map Eff effs ++ evs) s2.

(** The same for the follow-up lookups of [followUpProvider]. *)
Inductive noFollowUpFrom (result : ChatResult) (token : vscode.CancellationToken)
    : list OwnerName -> Store S -> list Event -> Store S -> Prop :=
| noFollowUpFrom_nil s : noFollowUpFrom result token [] s [] s
| noFollowUpFrom_cons o os s s1 evs s2 :
    getFollowUpForLastHandledSlashCommand (owner o) result token s
      = (Returned None, s1) ->
    noFollowUpFrom result token os s1 evs s2 ->
    noFollowUpFrom result token (o :: os) s (CallGetFollowUp o result :: evs) s2.

End Router.

Arguments unresolvedBy {S} agent request _ _ _ _.
Arguments noFollowUpFrom {S} agent result token _ _ _ _.

(** ** Owners: registry, resolver and execution coordinator *)

Module SlashCommands.

(** Modelled from the spec: the Command Registry of an owner, whose source
    (slashCommands.ts) is not among the sources. The commands are kept in
    insertion order; each of the two distinguished entries is either the
    name of a registered command or a handler attached directly, as the
    constructor calls of agent.ts pass them. *)
Inductive Fallback : Type :=
| ByName (name : string)
| Attached.

(** Modelled from the spec: the Registry of one owner (slashCommands.ts):
    the mapping from names to descriptors and the two distinguished
    entries [default] and [noInput]. *)
Record Registry : Type := {
  commands : list (string * SlashCommandConfig);
  fallbackDefault : option Fallback;
  fallbackNoInput : option Fallback;
}.

(** Modelled from the spec: the registry of a freshly constructed owner. *)
Definition emptyRegistry : Registry :=
  {| commands := []; fallbackDefault := None; fallbackNoInput := None |}.

(** Modelled from the spec: the registration-time error of the Command
    Registry. *)
Inductive RegistrationError : Type :=
| DuplicateNameError (name : string).

(** Modelled from the spec: lookup of a name in the mapping of the Command
    Registry; the first entry under the name is the one found. *)
Fixpoint lookupCommand (n : string) (cs : list (string * SlashCommandConfig))
    : option SlashCommandConfig :=
  match cs with
  | [] => None
  | (k, c) :: rest => if decide (k = n) then Some c else lookupCommand n rest
  end.

(** Modelled from the spec: [get(name)] of the Command Registry. *)
Definition get (n : string) (r : Registry) : option SlashCommandConfig :=
  lookupCommand n (commands r).

(** Modelled from the spec: [register(descriptor)] of the Command Registry;
    a name that is already present is refused. *)
Definition register (c : SlashCommandConfig) (r : Registry)
    : RegistrationError + Registry :=
  let n := name (descriptor c) in
  match get n r with
  | Some _ => inl (DuplicateNameError n)
  | None =>
      inr {| commands := commands r ++ [(n, c)];
             fallbackDefault := fallbackDefault r;
             fallbackNoInput := fallbackNoInput r |}
  end.

(** Modelled from the spec: [register] applied to a sequence of commands,
    stopping at the first refusal. *)
Fixpoint registerAll (cs : list SlashCommandConfig) (r : Registry)
    : RegistrationError + Registry :=
  match cs with
  | [] => inr r
  | c :: rest =>
      match register c r with
      | inl e => inl e
      | inr r' => registerAll rest r'
      end
  end.

(** Modelled from the spec: [list()] of the Command Registry. *)
Definition list_ (r : Registry) : list (string * SlashCommandConfig) :=
  commands r.

(** Modelled from the spec: [setDefault(handler)] of the Command Registry. *)
Definition setDefault (f : Fallback) (r : Registry) : Registry :=
  {| commands := commands r; fallbackDefault := Some f;
     fallbackNoInput := fallbackNoInput r |}.

(** Modelled from the spec: [setNoInput(handler)] of the Command Registry. *)
Definition setNoInput (f : Fallback) (r : Registry) : Registry :=
  {| commands := commands r; fallbackDefault := fallbackDefault r;
     fallbackNoInput := Some f |}.

(** Modelled from the spec: what the pluggable intent classifier, an
    external collaborator, can answer; a failure of the classifier counts as
    no match. *)
Inductive ClassifierReply : Type :=
| BestMatch (name : string)
| NoMatch
| ClassificationFailure.

(** Modelled from the spec: the classifier of slashCommands.ts. It is given
    the prompt and the intent descriptions of the registered commands. *)
Definition Classifier : Type :=
  string -> list (string * option string) -> ClassifierReply.

(** Modelled from the spec: which handler of an owner a resolution of the
    Dispatch Resolver designates. *)
Inductive HandlerRef : Type :=
| ForCommand (name : string)
| ForDefault
| ForNoInput.

(** Modelled from the spec: the outcome of the Dispatch Resolver, a selected
    command or unresolved. *)
Inductive Resolution : Type :=
| Selected (name : string) (ref : HandlerRef)
| Unresolved.

(** Modelled from the spec: whether the trimmed prompt is empty, as the
    Dispatch Resolver asks. *)
Fixpoint isBlank (s : string) : bool :=
  match s with
  | EmptyString => true
  | String a rest => Ascii.is_space a && isBlank rest
  end.

(** Modelled from the spec: how a distinguished entry of the Registry
    resolves to one handler: the registered command it names, or the handler
    attached directly, recorded under the entry's own label. *)
Definition resolveFallback (r : Registry) (entry : string)
    (ref : HandlerRef) (f : option Fallback) : Resolution :=
  match f with
  | Some (ByName n) =>
      match get n r with
      | Some _ => Selected n (ForCommand n)
      | None => Unresolved
      end
  | Some Attached => Selected entry ref
  | None => Unresolved
  end.

(** Modelled from the spec: the intent descriptions the Dispatch Resolver
    hands to the classifier. *)
Definition candidates (r : Registry) : list (string * option string) :=
  map (fun '(n, c) => (n, intentDescription (descriptor c))) (commands r).

(** Modelled from the spec: whether the Dispatch Resolver selected a
    command. *)
Definition isSelected (x : Resolution) : bool :=
  match x with Selected _ _ => true | Unresolved => false end.

(** Modelled from the spec: the Dispatch Resolver (explicit command, then
    no-input entry, then intent classification, then registry default,
    then unresolved). The second component lists the classifier calls. *)
Definition resolve (r : Registry) (disableIntentDetection : bool)
    (classify : Classifier) (request : AgentRequest)
    : Resolution * list Effect :=
  let explicit :=
    match command request with
    | Some c => match get c r with Some _ => Some c | None => None end
    | None => None
    end in
  let byDefault := resolveFallback r "default" ForDefault (fallbackDefault r) in
  let byNoInput := resolveFallback r "noInput" ForNoInput (fallbackNoInput r) in
  match explicit with
  | Some c => (Selected c (ForCommand c), [])
  | None =>
      if bool_decide (command request = None) && isBlank (userPrompt request)
         && isSelected byNoInput
      then (byNoInput, [])
      else if negb disableIntentDetection && negb (isBlank (userPrompt request))
      then
        let call := Classify (userPrompt request) (map fst (commands r)) in
        match classify (userPrompt request) (candidates r) with
        | BestMatch n =>
            match get n r with
            | Some _ => (Selected n (ForCommand n), [call])
            | None => (byDefault, [call])
            end
        | NoMatch | ClassificationFailure => (byDefault, [call])
        end
      else (byDefault, [])
  end.

(** Modelled from the spec: the Owner Composer of slashCommands.ts. An
    owner bundles a registry, its intent-detection flag, its classifier and
    the handlers behind its commands; a handler is an external one (simple,
    wizard or skill) or a skill that routes the request into a nested
    owner. *)
Inductive Handler : Type :=
| Terminal
    (run : AgentRequest -> list string ->
           Outcome (option SkillCommandResult) * list vscode.ResponsePart)
| Nested (refine : AgentRequest -> AgentRequest) (inner : Owner)
with Owner : Type :=
| MkOwner (registry : Registry) (disableIntentDetection : bool)
    (classify : Classifier) (handlerOf : HandlerRef -> Handler).

Scheme Owner_mut := Induction for Owner Sort Prop
  with Handler_mut := Induction for Handler Sort Prop.

(** Modelled from the spec: the registry of an owner. *)
Definition registry (o : Owner) : Registry :=
  match o with MkOwner r _ _ _ => r end.

(** Modelled from the spec: the handlers of an owner. *)
Definition handlerOf (o : Owner) : HandlerRef -> Handler :=
  match o with MkOwner _ _ _ h => h end.

(** Modelled from the spec: the Dispatch Resolver run on an owner. *)
Definition resolveOwner (o : Owner) (request : AgentRequest)
    : Resolution * list Effect :=
  match o with MkOwner r d c _ => resolve r d c request end.

(** Modelled from the spec: the per-process state of the Execution
    Coordinator: the source of fresh result ids and the
    most-recent-results cache (newest first). *)
Record Coordinator : Type := {
  nextResultId : nat;
  recentResults : list (string * loc);
}.

(** Modelled from the spec: the two facts about the host IDE that the
    gating flags of a descriptor ask about. *)
Record Host : Type := {
  workspaceOpen : bool;
  azureLoggedIn : bool;
}.

(** Modelled from the spec: lookup in the most-recent-results cache of the
    Execution Coordinator. *)
Fixpoint lookupResult (id : string) (cache : list (string * loc)) : option loc :=
  match cache with
  | [] => None
  | (k, l) :: rest => if decide (k = id) then Some l else lookupResult id rest
  end.

(** Modelled from the spec: gating of a selected command; a violated
    precondition yields the explanatory message. *)
Definition gated (r : Registry) (ref : HandlerRef) (c : Host)
    : option string :=
  match ref with
  | ForCommand n =>
      match get n r with
      | Some cfg =>
          if bool_decide (requiresWorkspaceOpen (descriptor cfg) = Some true)
             && negb (workspaceOpen c)
          then Some "This command requires an open workspace."
          else if bool_decide (requiresAzureLogin (descriptor cfg) = Some true)
                  && negb (azureLoggedIn c)
          then Some "This command requires being signed in to Azure."
          else None
      | None => None
      end
  | ForDefault | ForNoInput => None
  end.

Section Coordinator.

(** The size of the most-recent-results cache; the spec only calls it
    small. *)
Variable cacheCapacity : nat.

Variable host : Host.

(** Modelled from the spec: the metadata the Execution Coordinator writes
    on a result: chain and result id are overwritten, the other keys the
    handler supplied are kept. *)
Definition withMetadata (obj : SkillCommandResult) (chain : list string)
    (id : string) : SkillCommandResult :=
  {| chatAgentResult :=
       {| errorDetails := errorDetails (chatAgentResult obj);
          metadata :=
            Some {| handlerChain := Some chain;
                    resultId := Some id;
                    additional :=
                      match metadata (chatAgentResult obj) with
                      | Some m => additional m
                      | None => ∅
                      end |} |};
     followUp := followUp obj |}.

(** Modelled from the spec: normalisation of a result by the Execution
    Coordinator. Whatever the handler supplied, the object behind [l]
    gets the accumulated chain and a fresh result id, and is entered in
    the most-recent-results cache. *)
Definition commit (l : loc) (obj : SkillCommandResult) (chain : list string)
    (s : Store Coordinator) : Store Coordinator :=
  let c := priv s in
  let id := pretty (nextResultId c) in
  {| heap := <[l := withMetadata obj chain id]> (heap s);
     priv := {| nextResultId := Datatypes.S (nextResultId c);
                recentResults :=
                  take cacheCapacity ((id, l) :: recentResults c) |} |}.

(** Modelled from the spec: the result that stands for the explanatory
    message of a gating violation. *)
Definition gatedResult : SkillCommandResult :=
  {| chatAgentResult := {| errorDetails := None; metadata := None |};
     followUp := None |}.

(** Modelled from the spec: the chain a nested owner recorded on the result
    it returned. *)
Definition returnedChain (obj : SkillCommandResult) : list string :=
  match metadata (chatAgentResult obj) with
  | Some m => default [] (handlerChain m)
  | None => []
  end.

(** Modelled from the spec: [handleRequestOrPrompt] of an owner, that is
    the Dispatch Resolver followed by the Execution Coordinator. The
    selected name is appended to the chain before the handler runs; a
    handler that throws is caught and logged and the owner answers
    unresolved; the chain fragment a nested owner returns is spliced onto
    the running chain. *)
Fixpoint dispatch (o : Owner) (request : AgentRequest)
    (handlerChain : list string) (s : Store Coordinator) {struct o}
    : Outcome (option loc) * list Effect * Store Coordinator :=
  match o with
  | MkOwner r d c handlers =>
      match resolve r d c request with
      | (Unresolved, effs) => (Returned None, effs, s)
      | (Selected n ref, effs) =>
          let chain := handlerChain ++ [n] in
          match gated r ref host with
          | Some msg =>
              let l := fresh (dom (heap s)) in
              (Returned (Some l),
               effs ++ [Wrote (vscode.markdown msg)],
               commit l gatedResult chain s)
          | None =>
              match handlers ref with
              | Terminal run =>
                  match run request chain with
                  | (Threw e, parts) =>
                      (Returned None,
                       effs ++ Invoke n chain :: map Wrote parts ++ [Log e],
                       s)
                  | (Returned None, parts) =>
                      (Returned None,
                       effs ++ Invoke n chain :: map Wrote parts,
                       s)
                  | (Returned (Some obj), parts) =>
                      let l := fresh (dom (heap s)) in
                      (Returned (Some l),
                       effs ++ Invoke n chain :: map Wrote parts,
                       commit l obj chain s)
                  end
              | Nested refine inner =>
                  match dispatch inner (refine request) chain s with
                  | (Returned (Some l), effs', s') =>
                      match heap s' !! l with
                      | Some obj =>
                          let fragment :=
                            drop (length chain) (returnedChain obj) in
                          (Returned (Some l),
                           effs ++ Invoke n chain :: effs',
                           commit l obj (chain ++ fragment) s')
                      | None =>
                          (Returned None, effs ++ Invoke n chain :: effs', s')
                      end
                  | (Returned None, effs', s') =>
                      (Returned None, effs ++ Invoke n chain :: effs', s')
                  | (Threw e, effs', s') =>
                      (Returned None,
                       effs ++ Invoke n chain :: effs' ++ [Log e], s')
                  end
              end
          end
      end
  end.

(** Modelled from the spec: the follow-up lookup of the Execution
    Coordinator, by the result id carried in the metadata of the result
    that is passed back. *)
Definition getFollowUp (result : ChatResult) (_token : vscode.CancellationToken)
    (s : Store Coordinator)
    : Outcome (option (list vscode.ChatFollowup)) * Store Coordinator :=
  match metadata result ≫= resultId with
  | Some id =>
      match lookupResult id (recentResults (priv s)) with
      | Some l =>
          match heap s !! l with
          | Some obj => (Returned (followUp obj), s)
          | None => (Returned None, s)
          end
      | None => (Returned None, s)
      end
  | None => (Returned None, s)
  end.

(** Modelled from the spec: an owner as the [SlashCommandsOwner] object
    that agent.ts uses; its listing is the registry's [list()]. *)
Definition toSlashCommandsOwner (o : Owner) : SlashCommandsOwner Coordinator :=
  {| asHandler :=
       {| handleRequestOrPrompt := dispatch o;
          getFollowUpForLastHandledSlashCommand := getFollowUp |};
     getSlashCommands := list_ (registry o) |}.

(** Modelled from the spec: the composition root over three Owner
    Composers, the benchmarking owner included. *)
Definition agentOf (hidden bench visible : Owner) : Agent Coordinator :=
  {| agentSlashCommandsOwner := toSlashCommandsOwner visible;
     agentBenchmarker := asHandler (toSlashCommandsOwner bench);
     agentHiddenSlashCommandsOwner := toSlashCommandsOwner hidden |}.

(** Modelled from the spec: the Owner Composer behind each name of the
    router's list. *)
Definition ownerOf (hidden bench visible : Owner) (o : OwnerName) : Owner :=
  match o with
  | hiddenOwner => hidden
  | benchmarker => bench
  | visibleOwner => visible
  end.

(** Modelled from the spec: the names selected along the nested
    delegation of a request, outermost first; its length is the depth of
    the delegation. A gated command ends the delegation. *)
Fixpoint delegationPath (o : Owner) (request : AgentRequest) {struct o}
    : list string :=
  match o with
  | MkOwner r d c handlers =>
      match resolve r d c request with
      | (Unresolved, _) => []
      | (Selected n ref, _) =>
          n :: match gated r ref host with
               | Some _ => []
               | None =>
                   match handlers ref with
                   | Terminal _ => []
                   | Nested refine inner =>
                       delegationPath inner (refine request)
                   end
               end
      end
  end.

(** Modelled from the spec: what a dispatch that produces the result behind
    [l] leaves behind:
    the object carries the chain extended by the delegation path and the
    newest result id, and it is the newest entry of the cache. *)
Definition resolvedPost (o : Owner) (request : AgentRequest)
    (chain : list string) (s : Store Coordinator) (l : loc)
    (s' : Store Coordinator) : Prop :=
  exists obj m,
    heap s' !! l = Some obj
    /\ metadata (chatAgentResult obj) = Some m
    /\ handlerChain m = Some (chain ++ delegationPath o request)
    /\ resultId m = Some (pretty (nextResultId (priv s') - 1)%nat)
    /\ (nextResultId (priv s) < nextResultId (priv s'))%nat
    /\ ((0 < cacheCapacity)%nat ->
        exists older,
          recentResults (priv s')
          = (pretty (nextResultId (priv s') - 1)%nat, l) :: older).

(** Modelled from the spec: the result id carried by the object behind a
    reference. *)
Definition resultIdAt (l : loc) (s : Store Coordinator) : option string :=
  obj ← heap s !! l; m ← metadata (chatAgentResult obj); resultId m.

(** Modelled from the spec: sequential dispatches in one process, each
    starting from an empty chain: for every job, the reference it returned (if it resolved) and
    the result id found on the object behind it at that moment. *)
Fixpoint dispatchSequence (jobs : list (Owner * AgentRequest))
    (s : Store Coordinator)
    : list (option loc * option string) * Store Coordinator :=
  match jobs with
  | [] => ([], s)
  | (o, request) :: rest =>
      match dispatch o request [] s with
      | (Returned (Some l), _, s') =>
          let '(out, s'') := dispatchSequence rest s' in
          ((Some l, resultIdAt l s') :: out, s'')
      | (_, _, s') =>
          let '(out, s'') := dispatchSequence rest s' in
          ((None, None) :: out, s'')
      end
  end.

End Coordinator.

End SlashCommands.

(** ** Sample owners and requests *)

Module Samples.

Definition suggestion (text : string) : vscode.ChatFollowup :=
  {| vscode.prompt_text := text; vscode.label := None |}.

Definition fiveFollowUps : list vscode.ChatFollowup :=
  [suggestion "one"; suggestion "two"; suggestion "three";
   suggestion "four"; suggestion "five"].

Definition plainResult : ChatResult :=
  {| errorDetails := None; metadata := None |}.

Definition chattyResult : SkillCommandResult :=
  {| chatAgentResult := plainResult; followUp := Some fiveFollowUps |}.

(** An owner that never claims a request and has no follow-up. *)
Definition silentOwner : IAgentRequestHandler unit :=
  {| handleRequestOrPrompt := fun _ _ s => (Returned None, [], s);
     getFollowUpForLastHandledSlashCommand := fun _ _ s => (Returned None, s) |}.

(** An owner that answers every request with [chattyResult], stored at
    reference 0, and whose follow-up for every result is the empty list. *)
Definition answeringOwner : IAgentRequestHandler unit :=
  {| handleRequestOrPrompt := fun _ _ s =>
       (Returned (Some 0%nat), [Wrote (vscode.markdown "done")],
        {| heap := <[0%nat := chattyResult]> (heap s); priv := priv s |});
     getFollowUpForLastHandledSlashCommand := fun _ _ s => (Returned (Some []), s) |}.

(** An owner that fails whenever it is asked anything. *)
Definition failingOwner : IAgentRequestHandler unit :=
  {| handleRequestOrPrompt := fun _ _ s => (Threw (UserError "boom"), [], s);
     getFollowUpForLastHandledSlashCommand := fun _ _ s =>
       (Threw (UserError "boom"), s) |}.

Definition listing (h : IAgentRequestHandler unit) : SlashCommandsOwner unit :=
  {| asHandler := h; getSlashCommands := [] |}.

(** Hidden owner silent, benchmarker answering, user-visible owner failing. *)
Definition benchmarkAgent : Agent unit :=
  {| agentSlashCommandsOwner := listing failingOwner;
     agentBenchmarker := answeringOwner;
     agentHiddenSlashCommandsOwner := listing silentOwner |}.

(** No owner claims anything. *)
Definition silentAgent : Agent unit :=
  {| agentSlashCommandsOwner := listing silentOwner;
     agentBenchmarker := silentOwner;
     agentHiddenSlashCommandsOwner := listing silentOwner |}.

Definition someRequest : vscode.ChatRequest :=
  {| vscode.prompt := "how do I deploy?"; vscode.command := None |}.

Definition noContext : vscode.ChatContext := {| vscode.history := [] |}.

Definition liveToken : vscode.CancellationToken :=
  {| vscode.isCancellationRequested := false |}.

Definition emptyWorld : World unit :=
  {| store := {| heap := ∅; priv := tt |}; trace := [] |}.

(** *** Owners with registries *)

Definition describe (n display short : string) (intent : option string)
    : SlashCommandConfig :=
  {| shortDescription := short;
     descriptor :=
       {| name := n; commandId := "azureAgent." +:+ n; displayName := display;
          intentDescription := intent; requiresWorkspaceOpen := None;
          requiresAzureLogin := None; type := skill |} |}.

Definition helpCommand : SlashCommandConfig :=
  describe "help" "Help" "Get help with the agent" None.

Definition storageCommand : SlashCommandConfig :=
  describe "storage" "Azure Storage" "Work with Azure Storage"
    (Some "Best when users ask about storage accounts").

Definition brokenCommand : SlashCommandConfig :=
  describe "broken" "Broken" "A command whose handler fails" None.

Definition createAccountCommand : SlashCommandConfig :=
  describe "createAccount" "Create Storage Account" "Create a storage account" None.

Definition registryOf (cs : list SlashCommandConfig) : SlashCommands.Registry :=
  match SlashCommands.registerAll cs SlashCommands.emptyRegistry with
  | inr r => r
  | inl _ => SlashCommands.emptyRegistry
  end.

(** A classifier that answers "storage" whatever it is asked. *)
Definition eagerClassifier : SlashCommands.Classifier :=
  fun _ _ => SlashCommands.BestMatch "storage".

Definition answering : SlashCommands.Handler :=
  SlashCommands.Terminal (fun _ _ => (Returned (Some chattyResult), [])).

Definition throwing : SlashCommands.Handler :=
  SlashCommands.Terminal (fun _ _ => (Threw (UserError "boom"), [])).

(** The nested owner behind the "storage" skill. *)
Definition storageOwner : SlashCommands.Owner :=
  SlashCommands.MkOwner (registryOf [createAccountCommand]) true
    eagerClassifier (fun _ => answering).

Definition asCreateAccount (r : AgentRequest) : AgentRequest :=
  {| command := Some "createAccount"; userPrompt := userPrompt r;
     context := context r; token := token r |}.

(** A user-visible owner: "help" answers, "storage" routes into
    [storageOwner], the handler of "broken" throws; no input goes to
    "help" and the attached default handler answers. *)
Definition visibleSample : SlashCommands.Owner :=
  SlashCommands.MkOwner
    (SlashCommands.setNoInput (SlashCommands.ByName "help")
       (SlashCommands.setDefault SlashCommands.Attached
          (registryOf [storageCommand; helpCommand; brokenCommand])))
    false eagerClassifier
    (fun ref =>
       match ref with
       | SlashCommands.ForCommand n =>
           if decide (n = "storage")
           then SlashCommands.Nested asCreateAccount storageOwner
           else if decide (n = "broken") then throwing else answering
       | _ => answering
       end).

(** A hidden owner: no fallbacks, intent detection disabled. *)
Definition hiddenSample : SlashCommands.Owner :=
  SlashCommands.MkOwner
    (registryOf [describe "toggleRag" "Toggle RAG" "Toggle RAG" None;
                 describe "ragStatus" "RAG Status" "Show the RAG status" None])
    true eagerClassifier (fun _ => answering).

Definition benchmarkSample : SlashCommands.Owner :=
  SlashCommands.MkOwner
    (registryOf [describe "benchmark" "Benchmark" "Run the benchmarks" None])
    true eagerClassifier (fun _ => answering).

Definition sampleHost : SlashCommands.Host :=
  {| SlashCommands.workspaceOpen := true; SlashCommands.azureLoggedIn := true |}.

Definition registryAgent : Agent SlashCommands.Coordinator :=
  SlashCommands.agentOf 4 sampleHost hiddenSample benchmarkSample visibleSample.

Definition freshProcess : Store SlashCommands.Coordinator :=
  {| heap := ∅;
     priv := {| SlashCommands.nextResultId := 0;
                SlashCommands.recentResults := [] |} |}.

Definition freshWorld : World SlashCommands.Coordinator :=
  {| store := freshProcess; trace := [] |}.

Definition ask (cmd : option string) (text : string) : AgentRequest :=
  {| command := cmd; userPrompt := text; context := noContext; token := liveToken |}.

(** The registry with commands A and B, default A and no-input B. *)
Definition registryAB : SlashCommands.Registry :=
  SlashCommands.setNoInput (SlashCommands.ByName "B")
    (SlashCommands.setDefault (SlashCommands.ByName "A")
       (registryOf [describe "A" "A" "First" None; describe "B" "B" "Second" None])).

(** A result that carries an id no dispatch has produced. *)
Definition strangerResult : ChatResult :=
  {| errorDetails := None;
     metadata := Some {| handlerChain := None; resultId := Some "unheard-of";
                         additional := ∅ |} |}.

End Samples.

(** ** The command maps built at load time *)

Module JSMap.

Section Map.

Context {V : Type}.

(** [map.set(k, v)] on a JavaScript [Map], kept as the list of its entries
    in iteration order: a key that is present keeps its place and takes the
    new value, a new key goes to the end. *)
Fixpoint set (k : string) (v : V) (m : list (string * V)) : list (string * V) :=
  match m with
  | [] => [(k, v)]
  | (k', v') :: rest =>
      if decide (k' = k) then (k, v) :: rest else (k', v') :: set k v rest
  end.

(** [map.get(k)]. *)
Fixpoint get (k : string) (m : list (string * V)) : option V :=
  match m with
  | [] => None
  | (k', v') :: rest => if decide (k' = k) then Some v' else get k rest
  end.

(** [new Map(entries)]: the entries are set one after the other. *)
Definition fromEntries (entries : list (string * V)) : list (string * V) :=
  fold_left (fun m e => set (fst e) (snd e) m) entries [].

(** [Array.from(map.keys())]. *)
Definition keys (m : list (string * V)) : list string := map fst m.

End Map.

End JSMap.

(** The top-level slash commands of the eight extension owners
    ([getTopLevelSlashCommand()] of each, agent.ts lines 48-55); the owners
    themselves are declared in extensions.ts, so their commands are
    parameters. *)
Record ExtensionCommands : Type := {
  appService : string * SlashCommandConfig;
  containerApps : string * SlashCommandConfig;
  databasesCosmosDb : string * SlashCommandConfig;
  databasesPostgreSQL : string * SlashCommandConfig;
  functions : string * SlashCommandConfig;
  staticWebApps : string * SlashCommandConfig;
  storage : string * SlashCommandConfig;
  virtualMachines : string * SlashCommandConfig;
}.

(** The array literal of agent.ts lines 47-57: the eight extension commands
    and then the help command. *)
Definition agentSlashCommandEntries (ext : ExtensionCommands)
    (help : string * SlashCommandConfig) : list (string * SlashCommandConfig) :=
  [appService ext; containerApps ext; databasesCosmosDb ext;
   databasesPostgreSQL ext; functions ext; staticWebApps ext; storage ext;
   virtualMachines ext; help].

(** The [Map] that agent.ts hands to
    [agentSlashCommandsOwner.addInvokeableSlashCommands]. *)
Definition agentSlashCommands (ext : ExtensionCommands)
    (help : string * SlashCommandConfig) : list (string * SlashCommandConfig) :=
  JSMap.fromEntries (agentSlashCommandEntries ext help).

(** ** Registration of the chat participant *)

Module Registration.

(** A [vscode.Uri], as far as [joinPath] is concerned: where it starts and
    the path segments added to it. *)
Record Uri : Type := { root : string; segments : list string }.

(** [vscode.Uri.joinPath(base, ...pathSegments)]. *)
Definition joinPath (base : Uri) (pathSegments : list string) : Uri :=
  {| root := root base; segments := segments base ++ pathSegments |}.

(** The participant object that [vscode.chat.createChatParticipant] returns.
    The properties the extension assigns are unset until it does. *)
Record ChatParticipant (S : Type) : Type := {
  id : string;
  requestHandler :
    vscode.ChatRequest -> vscode.ChatContext -> vscode.CancellationToken ->
    Run S (option ChatResult);
  description : option string;
  fullName : option string;
  iconPath : option Uri;
  commandProvider : option (vscode.CancellationToken -> list vscode.ChatCommand);
  followupProvider :
    option (ChatResult -> vscode.CancellationToken ->
            Run S (option (list vscode.ChatFollowup)));
  isSticky : option bool;
}.
Arguments id {S} _.
Arguments requestHandler {S} _.
Arguments description {S} _.
Arguments fullName {S} _.
Arguments iconPath {S} _.
Arguments commandProvider {S} _.
Arguments followupProvider {S} _.
Arguments isSticky {S} _.

(** What the extension host holds: the participants created so far, which
    the extension keeps mutating through the reference it was given, and the
    console. *)
Record ExtensionHost (S : Type) : Type := {
  participants : list (ChatParticipant S);
  console : list Error;
}.
Arguments participants {S} _.
Arguments console {S} _.

(** What the surroundings decide: whether [createChatParticipant] fails, and
    what evaluating [ext.context.extensionUri] gives. *)
Record Environment : Type := {
  createFailure : option Error;
  extensionUri : Outcome Uri;
}.

Section Register.

Context {S : Type}.

(** The constants of [agentConsts], which is not among the sources. *)
Variables agentName agentDescription agentFullName : string.
Variable maxFollowUps : Z.

Variable agent : Agent S.

Variable env : Environment.

(** Computations on the extension host. *)
Definition Act (A : Type) : Type :=
  ExtensionHost S -> Outcome A * ExtensionHost S.

Definition andThen {A B : Type} (m : Act A) (k : A -> Act B) : Act B :=
  fun h =>
    match m h with
    | (Returned a, h') => k a h'
    | (Threw e, h') => (Threw e, h')
    end.

(** [try { body } catch (e) { handler }]. *)
Definition tryCatch {A : Type} (body : Act A) (handler : Error -> Act A) : Act A :=
  fun h =>
    match body h with
    | (Returned a, h') => (Returned a, h')
    | (Threw e, h') => handler e h'
    end.

(** [console.log(e)]. *)
Definition consoleLog (e : Error) : Act unit :=
  fun h =>
    (Returned tt, {| participants := participants h; console := console h ++ [e] |}).

(** [vscode.chat.createChatParticipant(name, handler)]: the reference of the
    new participant, or the failure the environment has in store. *)
Definition createChatParticipant (name : string)
    (handler : vscode.ChatRequest -> vscode.ChatContext ->
               vscode.CancellationToken -> Run S (option ChatResult))
    : Act nat :=
  fun h =>
    match createFailure env with
    | Some e => (Threw e, h)
    | None =>
        (Returned (length (participants h)),
         {| participants :=
              participants h
              ++ [{| id := name; requestHandler := handler;
                     description := None; fullName := None; iconPath := None;
                     commandProvider := None; followupProvider := None;
                     isSticky := None |}];
            console := console h |})
    end.

(** Assignment to the participant behind a reference. *)
Definition assignTo (i : nat) (f : ChatParticipant S -> ChatParticipant S)
    : Act unit :=
  fun h =>
    (Returned tt,
     {| participants := alter f i (participants h); console := console h |}).

(** Evaluation of [vscode.Uri.joinPath(ext.context.extensionUri, ...)]. *)
Definition extensionPath (pathSegments : list string) : Act Uri :=
  fun h =>
    match extensionUri env with
    | Returned base => (Returned (joinPath base pathSegments), h)
    | Threw e => (Threw e, h)
    end.

Definition setDescription (v : string) (p : ChatParticipant S) : ChatParticipant S :=
  {| id := id p; requestHandler := requestHandler p; description := Some v;
     fullName := fullName p; iconPath := iconPath p;
     commandProvider := commandProvider p;
     followupProvider := followupProvider p; isSticky := isSticky p |}.

Definition setFullName (v : string) (p : ChatParticipant S) : ChatParticipant S :=
  {| id := id p; requestHandler := requestHandler p; description := description p;
     fullName := Some v; iconPath := iconPath p;
     commandProvider := commandProvider p;
     followupProvider := followupProvider p; isSticky := isSticky p |}.

Definition setIconPath (v : Uri) (p : ChatParticipant S) : ChatParticipant S :=
  {| id := id p; requestHandler := requestHandler p; description := description p;
     fullName := fullName p; iconPath := Some v;
     commandProvider := commandProvider p;
     followupProvider := followupProvider p; isSticky := isSticky p |}.

Definition setCommandProvider
    (v : vscode.CancellationToken -> list vscode.ChatCommand)
    (p : ChatParticipant S) : ChatParticipant S :=
  {| id := id p; requestHandler := requestHandler p; description := description p;
     fullName := fullName p; iconPath := iconPath p;
     commandProvider := Some v;
     followupProvider := followupProvider p; isSticky := isSticky p |}.

Definition setFollowupProvider
    (v : ChatResult -> vscode.CancellationToken ->
         Run S (option (list vscode.ChatFollowup)))
    (p : ChatParticipant S) : ChatParticipant S :=
  {| id := id p; requestHandler := requestHandler p; description := description p;
     fullName := fullName p; iconPath := iconPath p;
     commandProvider := commandProvider p;
     followupProvider := Some v; isSticky := isSticky p |}.

Definition setIsSticky (v : bool) (p : ChatParticipant S) : ChatParticipant S :=
  {| id := id p; requestHandler := requestHandler p; description := description p;
     fullName := fullName p; iconPath := iconPath p;
     commandProvider := commandProvider p;
     followupProvider := followupProvider p; isSticky := Some v |}.

(** [registerChatParticipant] of agent.ts. *)
Definition registerChatParticipant : Act unit :=
  tryCatch
    (andThen (createChatParticipant agentName (handler maxFollowUps agent))
       (fun agent2 =>
     andThen (assignTo agent2 (setDescription agentDescription)) (fun _ =>
     andThen (assignTo agent2 (setFullName agentFullName)) (fun _ =>
     andThen (extensionPath ["resources"; "azure-color.svg"]) (fun icon =>
     andThen (assignTo agent2 (setIconPath icon)) (fun _ =>
     andThen (assignTo agent2 (setCommandProvider (getCommands agent))) (fun _ =>
     andThen (assignTo agent2 (setFollowupProvider (followUpProvider agent)))
       (fun _ =>
     assignTo agent2 (setIsSticky true)))))))))
    (fun e => consoleLog e).

End Register.

End Registration.

(** ** More sample owners *)

Module MoreSamples.

(** Hidden owner silent, benchmarker failing, user-visible owner answering. *)
Definition failingAgent : Agent unit :=
  {| agentSlashCommandsOwner := Samples.listing Samples.answeringOwner;
     agentBenchmarker := Samples.failingOwner;
     agentHiddenSlashCommandsOwner := Samples.listing Samples.silentOwner |}.

(** An owner that answers with a reference behind which there is nothing. *)
Definition danglingOwner : IAgentRequestHandler unit :=
  {| handleRequestOrPrompt := fun _ _ s => (Returned (Some 7%nat), [], s);
     getFollowUpForLastHandledSlashCommand := fun _ _ s => (Returned None, s) |}.

Definition danglingAgent : Agent unit :=
  {| agentSlashCommandsOwner := Samples.listing Samples.silentOwner;
     agentBenchmarker := Samples.silentOwner;
     agentHiddenSlashCommandsOwner := Samples.listing danglingOwner |}.

(** A result with two follow-ups, and an owner that answers with it. *)
Definition terseResult : SkillCommandResult :=
  {| chatAgentResult := Samples.plainResult;
     followUp := Some [Samples.suggestion "one"; Samples.suggestion "two"] |}.

Definition terseOwner : IAgentRequestHandler unit :=
  {| handleRequestOrPrompt := fun _ _ s =>
       (Returned (Some 0%nat), [],
        {| heap := <[0%nat := terseResult]> (heap s); priv := priv s |});
     getFollowUpForLastHandledSlashCommand := fun _ _ s => (Returned None, s) |}.

Definition terseAgent : Agent unit :=
  {| agentSlashCommandsOwner := Samples.listing Samples.silentOwner;
     agentBenchmarker := Samples.silentOwner;
     agentHiddenSlashCommandsOwner := Samples.listing terseOwner |}.

(** A world in which another result object already exists. *)
Definition busyWorld : World unit :=
  {| store := {| heap := {[ 5%nat := Samples.chattyResult ]}; priv := tt |};
     trace := [] |}.

Definition extensionRoot : Registration.Uri :=
  {| Registration.root := "file:///extension"; Registration.segments := [] |}.

Definition healthy : Registration.Environment :=
  {| Registration.createFailure := None;
     Registration.extensionUri := Returned extensionRoot |}.

Definition withoutChatApi : Registration.Environment :=
  {| Registration.createFailure := Some (TypeError "createChatParticipant");
     Registration.extensionUri := Returned extensionRoot |}.

Definition withoutContext : Registration.Environment :=
  {| Registration.createFailure := None;
     Registration.extensionUri := Threw (TypeError "extensionUri") |}.

Definition emptyHost : Registration.ExtensionHost unit :=
  {| Registration.participants := []; Registration.console := [] |}.

Definition entry (n short : string) : string * SlashCommandConfig :=
  (n, Samples.describe n n short None).

(** Eight extension commands of which two share the name "storage". *)
Definition clashingExtensions : ExtensionCommands :=
  {| appService := entry "appservice" "App Service";
     containerApps := entry "containerapps" "Container Apps";
     databasesCosmosDb := entry "cosmosdb" "Cosmos DB";
     databasesPostgreSQL := entry "postgresql" "PostgreSQL";
     functions := entry "functions" "Functions";
     staticWebApps := entry "storage" "Static Web Apps under a wrong name";
     storage := entry "storage" "Storage";
     virtualMachines := entry "vms" "Virtual Machines" |}.

Definition distinctExtensions : ExtensionCommands :=
  {| appService := entry "appservice" "App Service";
     containerApps := entry "containerapps" "Container Apps";
     databasesCosmosDb := entry "cosmosdb" "Cosmos DB";
     databasesPostgreSQL := entry "postgresql" "PostgreSQL";
     functions := entry "functions" "Functions";
     staticWebApps := entry "staticwebapps" "Static Web Apps";
     storage := entry "storage" "Storage";
     virtualMachines := entry "vms" "Virtual Machines" |}.

End MoreSamples.

(** * Properties of the router *)

Section RouterFacts.

Context {S : Type}.
Variable maxFollowUps : Z.

Lemma slice_from_start {A : Type} (xs : list A) (n : Z) :
  0 <= n -> slice xs 0 n = take (Z.to_nat n) xs.
Proof.
  intros Hn. unfold slice, relative_index.
  destruct (Z.ltb_spec 0 0) as [?|_]; [lia|].
  destruct (Z.ltb_spec n 0) as [?|_]; [lia|].
  rewrite (Z.min_l 0) by lia. simpl. rewrite drop_0.
  destruct (Z.min_spec n (Z.of_nat (length xs))) as [[Hlt ->]|[Hge ->]].
  - by rewrite Z.sub_0_r.
  - rewrite Z.sub_0_r, Nat2Z.id.
    rewrite take_ge by lia. rewrite take_ge; [done|lia].
Qed.

Lemma calledOwners_app (evs1 evs2 : list Event) :
  calledOwners (evs1 ++ evs2) = calledOwners evs1 ++ calledOwners evs2.
Proof. unfold calledOwners. apply omap_app. Qed.

Lemma calledOwners_effects (effs : list Effect) :
  calledOwners (map Eff effs) = [].
Proof. induction effs as [|e effs IH]; [done|]. simpl. exact IH. Qed.

Lemma consultedOwners_app (evs1 evs2 : list Event) :
  consultedOwners (evs1 ++ evs2) = consultedOwners evs1 ++ consultedOwners evs2.
Proof. unfold consultedOwners. apply omap_app. Qed.

Lemma unresolvedBy_called (agent : Agent S) request os s evs s' :
  unresolvedBy agent request os s evs s' -> calledOwners evs = os.
Proof.
  induction 1 as [|o os s effs s1 evs s2 Hcall _ IH]; [done|].
  change (calledOwners (CallHandleRequestOrPrompt o request [] :: map Eff effs ++ evs))
    with (o :: calledOwners (map Eff effs ++ evs)).
  by rewrite calledOwners_app, calledOwners_effects, IH.
Qed.

Lemma noFollowUpFrom_consulted (agent : Agent S) result token os s evs s' :
  noFollowUpFrom agent result token os s evs s' -> consultedOwners evs = os.
Proof.
  induction 1 as [|o os s s1 evs s2 Hcall _ IH]; [done|].
  simpl. by rewrite IH.
Qed.

(** Owners that return [undefined] are skipped by the loop. *)
Lemma tryHandlers_skip (agent : Agent S) request os rest s evs s' :
  unresolvedBy agent request os s evs s' ->
  forall tr,
    tryHandlers agent (os ++ rest) request {| store := s; trace := tr |}
    = tryHandlers agent rest request {| store := s'; trace := tr ++ evs |}.
Proof.
  induction 1 as [|o os s effs s1 evs s2 Hcall _ IH]; intros tr.
  - by rewrite app_nil_r.
  - simpl. unfold bind at 1, callHandleRequestOrPrompt at 1. simpl.
    rewrite Hcall. rewrite IH. do 2 f_equal.
    by rewrite <- app_assoc.
Qed.

Lemma tryHandlers_win (agent : Agent S) request o rest s l effs s' tr :
  handleRequestOrPrompt (owner agent o) request [] s = (Returned (Some l), effs, s') ->
  tryHandlers agent (o :: rest) request {| store := s; trace := tr |}
  = (Returned (Some l),
     {| store := s';
        trace := tr ++ CallHandleRequestOrPrompt o request [] :: map Eff effs |}).
Proof.
  intros Hcall. simpl. unfold bind, callHandleRequestOrPrompt. simpl.
  by rewrite Hcall.
Qed.

Lemma tryProviders_skip (agent : Agent S) result token os rest s evs s' :
  noFollowUpFrom agent result token os s evs s' ->
  forall tr,
    tryProviders agent (os ++ rest) result token {| store := s; trace := tr |}
    = tryProviders agent rest result token {| store := s'; trace := tr ++ evs |}.
Proof.
  induction 1 as [|o os s s1 evs s2 Hcall _ IH]; intros tr.
  - by rewrite app_nil_r.
  - simpl. unfold bind at 1, callGetFollowUp at 1. simpl.
    rewrite Hcall. rewrite IH. do 2 f_equal.
    by rewrite <- app_assoc.
Qed.

(** The relation only looks at the owners it names. *)
Lemma unresolvedBy_ext (agent agent' : Agent S) request os s evs s' :
  (forall o, o ∈ os -> owner agent' o = owner agent o) ->
  unresolvedBy agent request os s evs s' ->
  unresolvedBy agent' request os s evs s'.
Proof.
  intros Hagree Hrun. induction Hrun as [|o os s effs s1 evs s2 Hcall _ IH].
  - constructor.
  - apply unresolvedBy_cons with (s1 := s1).
    + rewrite Hagree; [done|]. apply list_elem_of_here.
    + apply IH. intros o' Ho'. apply Hagree. by apply list_elem_of_further.
Qed.

Lemma tryHandlers_trace (agent : Agent S) request os :
  forall w, exists evs,
    trace (snd (tryHandlers agent os request w)) = trace w ++ evs
    /\ forall i o r c,
         evs !! i = Some (CallHandleRequestOrPrompt o r c) ->
         r = request /\ c = [].
Proof.
  induction os as [|o os IH]; intros w.
  - exists []. split; [by rewrite app_nil_r|]. intros i ? ? ? Hi.
    by rewrite lookup_nil in Hi.
  - simpl. unfold bind at 1, callHandleRequestOrPrompt at 1.
    destruct (handleRequestOrPrompt (owner agent o) request [] (store w))
      as [[out effs] s1] eqn:Hcall.
    assert (Heffs : forall i o' r c,
               (CallHandleRequestOrPrompt o request [] :: map Eff effs) !! i
               = Some (CallHandleRequestOrPrompt o' r c) -> r = request /\ c = []).
    { intros [|i] o' r c Hi; simpl in Hi; [by inversion Hi|].
      rewrite list_lookup_fmap in Hi.
      destruct (effs !! i); simpl in Hi; discriminate. }
    destruct out as [[l|]|e]; simpl.
    + eexists. split; [reflexivity|]. exact Heffs.
    + destruct (IH {| store := s1;
                      trace := trace w ++ CallHandleRequestOrPrompt o request []
                                 :: map Eff effs |}) as (evs & Htr & Hevs).
      rewrite Htr. simpl. rewrite <- app_assoc.
      eexists. split; [reflexivity|].
      intros i o' r c Hi. simpl in Hi.
      change (CallHandleRequestOrPrompt o request [] :: map Eff effs ++ evs)
        with ((CallHandleRequestOrPrompt o request [] :: map Eff effs) ++ evs) in Hi.
      apply lookup_app_Some in Hi as [Hi|[_ Hi]]; eauto.
    + eexists. split; [reflexivity|]. exact Heffs.
Qed.

(** What [handler] does when some owner resolves the request. *)
Lemma handler_resolved (agent : Agent S) request context token w
    before winner after s1 evs l effs s2 obj :
  [hiddenOwner; benchmarker; visibleOwner] = before ++ winner :: after ->
  unresolvedBy agent (agentRequestOf request context token) before (store w) evs s1 ->
  handleRequestOrPrompt (owner agent winner) (agentRequestOf request context token) [] s1
    = (Returned (Some l), effs, s2) ->
  heap s2 !! l = Some obj ->
  handler maxFollowUps agent request context token w
  = (Returned (Some (chatAgentResult obj)),
     {| store :=
          {| heap := <[l := setFollowUp obj
                             ((fun f => slice f 0 maxFollowUps) <$> followUp obj)]>
                       (heap s2);
             priv := priv s2 |};
        trace := trace w
                 ++ Eff (Wrote (vscode.progress "Processing request...")) :: evs
                 ++ CallHandleRequestOrPrompt winner
                      (agentRequestOf request context token) [] :: map Eff effs |}).
Proof.
  intros Hsplit Hbefore Hwin Hobj.
  unfold handler, handlers. rewrite Hsplit.
  unfold bind at 1, emit at 1. unfold bind at 1.
  rewrite (tryHandlers_skip _ _ _ _ _ _ _ Hbefore).
  rewrite (tryHandlers_win _ _ _ _ _ _ _ _ _ Hwin).
  unfold bind, deref, assign, ret. simpl. rewrite Hobj.
  do 2 f_equal. rewrite <- !app_assoc. reflexivity.
Qed.

(** A result of the loop comes from a first owner that resolved. *)
Lemma tryHandlers_inv (agent : Agent S) request os :
  forall w l w',
    tryHandlers agent os request w = (Returned (Some l), w') ->
    exists before winner after s1 evs effs,
      os = before ++ winner :: after
      /\ unresolvedBy agent request before (store w) evs s1
      /\ handleRequestOrPrompt (owner agent winner) request [] s1
         = (Returned (Some l), effs, store w').
Proof.
  induction os as [|o os IH]; intros w l w' Hrun; simpl in Hrun.
  - inversion Hrun.
  - unfold bind at 1, callHandleRequestOrPrompt at 1 in Hrun.
    destruct (handleRequestOrPrompt (owner agent o) request [] (store w))
      as [[out effs] s1] eqn:Hcall.
    destruct out as [[l1|]|e]; simpl in Hrun.
    + inversion Hrun; subst. exists [], o, os, (store w), [], effs.
      split; [done|]. split; [constructor|done].
    + apply IH in Hrun
        as (before & winner & after & s2 & evs & effs' & -> & Hbefore & Hwin).
      exists (o :: before), winner, after, s2. do 2 eexists.
      split; [done|]. split; [|exact Hwin].
      apply unresolvedBy_cons with (s1 := s1); [exact Hcall|exact Hbefore].
    + inversion Hrun.
Qed.

Lemma handler_inv (agent : Agent S) request context token w r w' :
  handler maxFollowUps agent request context token w = (Returned (Some r), w') ->
  exists l obj before winner after s1 evs effs s2,
    [hiddenOwner; benchmarker; visibleOwner] = before ++ winner :: after
    /\ unresolvedBy agent (agentRequestOf request context token) before
         (store w) evs s1
    /\ handleRequestOrPrompt (owner agent winner)
         (agentRequestOf request context token) [] s1
       = (Returned (Some l), effs, s2)
    /\ heap s2 !! l = Some obj
    /\ r = chatAgentResult obj.
Proof.
  unfold handler, handlers. unfold bind at 1, emit at 1. unfold bind at 1.
  destruct (tryHandlers agent [hiddenOwner; benchmarker; visibleOwner]
              (agentRequestOf request context token)
              {| store := store w;
                 trace := trace w
                   ++ [Eff (Wrote (vscode.progress "Processing request..."))] |})
    as [[[l|]|e] w1] eqn:Hloop; [| |intros Hrun; inversion Hrun].
  - intros Hrun. unfold bind, deref, assign, ret in Hrun.
    destruct (heap (store w1) !! l) as [obj|] eqn:Hobj; inversion Hrun; subst.
    apply tryHandlers_inv in Hloop
      as (before & winner & after & s1 & evs & effs & Hsplit & Hbefore & Hwin).
    exists l, obj, before, winner, after, s1, evs, effs, (store w1).
    by repeat split.
  - intros Hrun. inversion Hrun.
Qed.

(** Whatever the owners do, the owners called by the loop are an initial
    part of the list, in the order of the list. *)
Lemma tryHandlers_called_prefix (agent : Agent S) request os :
  forall w, exists evs,
    trace (snd (tryHandlers agent os request w)) = trace w ++ evs
    /\ calledOwners evs `prefix_of` os.
Proof.
  induction os as [|o os IH]; intros w.
  - exists []. split; [by rewrite app_nil_r|]. by exists [].
  - simpl. unfold bind at 1, callHandleRequestOrPrompt at 1.
    destruct (handleRequestOrPrompt (owner agent o) request [] (store w))
      as [[out effs] s1] eqn:Hcall.
    assert (Hhere : calledOwners (CallHandleRequestOrPrompt o request [] :: map Eff effs)
                    = [o]).
    { change (calledOwners (CallHandleRequestOrPrompt o request [] :: map Eff effs))
        with (o :: calledOwners (map Eff effs)).
      by rewrite calledOwners_effects. }
    destruct out as [[l|]|e]; simpl.
    + eexists. split; [reflexivity|]. rewrite Hhere. by exists os.
    + destruct (IH {| store := s1;
                      trace := trace w ++ CallHandleRequestOrPrompt o request []
                                 :: map Eff effs |}) as (evs & Htr & Hpre).
      rewrite Htr. simpl. rewrite <- app_assoc.
      eexists. split; [reflexivity|].
      change (CallHandleRequestOrPrompt o request [] :: map Eff effs ++ evs)
        with ((CallHandleRequestOrPrompt o request [] :: map Eff effs) ++ evs).
      rewrite calledOwners_app, Hhere. simpl. by apply prefix_cons.
    + eexists. split; [reflexivity|]. rewrite Hhere. by exists os.
Qed.

(** Every call the router makes passes the request it built and an empty
    handler chain. *)
Lemma handler_calls (agent : Agent S) request context token w :
  exists evs,
    trace (snd (handler maxFollowUps agent request context token w))
      = trace w ++ evs
    /\ forall i o r c,
         evs !! i = Some (CallHandleRequestOrPrompt o r c) ->
         r = agentRequestOf request context token /\ c = [].
Proof.
  unfold handler, handlers. unfold bind at 1, emit at 1. unfold bind at 1.
  set (w1 := {| store := store w;
                trace := trace w
                  ++ [Eff (Wrote (vscode.progress "Processing request..."))] |}).
  destruct (tryHandlers_trace agent (agentRequestOf request context token)
              [hiddenOwner; benchmarker; visibleOwner] w1) as (evs & Htr & Hevs).
  exists (Eff (Wrote (vscode.progress "Processing request...")) :: evs).
  split.
  - destruct (tryHandlers agent [hiddenOwner; benchmarker; visibleOwner]
                (agentRequestOf request context token) w1)
      as [[[l|]|e] w2]; simpl in *.
    + unfold bind, deref, assign, ret.
      destruct (heap (store w2) !! l); simpl; rewrite Htr;
        by rewrite <- app_assoc.
    + rewrite Htr. by rewrite <- app_assoc.
    + rewrite Htr. by rewrite <- app_assoc.
  - intros [|i] o r c Hi; simpl in Hi; [discriminate|]. by eapply Hevs.
Qed.

End RouterFacts.

(** ** The request handler *)

Section HandlerClaims.

Context {S : Type}.
Variable maxFollowUps : Z.
Variable agent : Agent S.

(** C1. The owners are tried in the order hidden owner, benchmarker,
    user-visible owner, each from the store the previous one left. When
    the owners in [before] returned [undefined] and [winner] is the first
    to return a result, [handler] returns the chat result of that result,
    the owners called are exactly [before] followed by [winner], and the
    run is the same whatever the later owners are. *)
Theorem handler_first_owner_wins request context token w
    before winner after s1 evs l effs s2 obj :
  [hiddenOwner; benchmarker; visibleOwner] = before ++ winner :: after ->
  unresolvedBy agent (agentRequestOf request context token) before (store w) evs s1 ->
  handleRequestOrPrompt (owner agent winner) (agentRequestOf request context token) [] s1
    = (Returned (Some l), effs, s2) ->
  heap s2 !! l = Some obj ->
  fst (handler maxFollowUps agent request context token w)
    = Returned (Some (chatAgentResult obj))
  /\ calledOwners
       (drop (length (trace w))
          (trace (snd (handler maxFollowUps agent request context token w))))
     = before ++ [winner]
  /\ forall agent' : Agent S,
       (forall o, o ∈ before ++ [winner] -> owner agent' o = owner agent o) ->
       handler maxFollowUps agent' request context token w
       = handler maxFollowUps agent request context token w.
Proof.
  intros Hsplit Hbefore Hwin Hobj.
  rewrite (handler_resolved _ _ _ _ _ _ _ _ _ _ _ _ _ _ _ Hsplit Hbefore Hwin Hobj).
  split; [reflexivity|]. split.
  - simpl. rewrite drop_app_length.
    change (calledOwners (?e :: ?t)) with (calledOwners t).
    rewrite calledOwners_app, (unresolvedBy_called _ _ _ _ _ _ Hbefore).
    change (calledOwners (CallHandleRequestOrPrompt ?o ?r ?c :: ?t))
      with (o :: calledOwners t).
    by rewrite calledOwners_effects.
  - intros agent' Hagree.
    apply handler_resolved with (before := before) (after := after) (s1 := s1);
      try done.
    + apply unresolvedBy_ext with (agent := agent); [|done].
      intros o Ho. apply Hagree. apply elem_of_app. by left.
    + rewrite Hagree; [done|]. apply elem_of_app. right. apply list_elem_of_here.
Qed.

(** C2. When some owner resolves the request, the result object it handed
    over carries, once [handler] has returned, the first [maxFollowUps]
    follow-ups of the list the owner supplied, hence at most
    [maxFollowUps] of them; the chat result that is returned is that
    object's. *)
Theorem handler_trims_followUp request context token w
    before winner after s1 evs l effs s2 obj :
  0 <= maxFollowUps ->
  [hiddenOwner; benchmarker; visibleOwner] = before ++ winner :: after ->
  unresolvedBy agent (agentRequestOf request context token) before (store w) evs s1 ->
  handleRequestOrPrompt (owner agent winner) (agentRequestOf request context token) [] s1
    = (Returned (Some l), effs, s2) ->
  heap s2 !! l = Some obj ->
  exists obj',
    heap (store (snd (handler maxFollowUps agent request context token w))) !! l
      = Some obj'
    /\ fst (handler maxFollowUps agent request context token w)
       = Returned (Some (chatAgentResult obj'))
    /\ followUp obj' = take (Z.to_nat maxFollowUps) <$> followUp obj
    /\ forall fs, followUp obj' = Some fs -> Z.of_nat (length fs) <= maxFollowUps.
Proof.
  intros Hmax Hsplit Hbefore Hwin Hobj.
  rewrite (handler_resolved _ _ _ _ _ _ _ _ _ _ _ _ _ _ _ Hsplit Hbefore Hwin Hobj).
  eexists. split; [apply lookup_insert_eq|]. simpl.
  split; [reflexivity|].
  destruct (followUp obj) as [fs0|]; simpl.
  - rewrite slice_from_start by done. split; [reflexivity|].
    intros fs [= <-]. rewrite length_take. lia.
  - split; [reflexivity|]. intros fs Hfs. discriminate.
Qed.

(** C3. When every owner returns [undefined], [handler] returns
    [undefined]; it does not throw. *)
Theorem handler_all_unresolved request context token w evs s' :
  unresolvedBy agent (agentRequestOf request context token)
    [hiddenOwner; benchmarker; visibleOwner] (store w) evs s' ->
  handler maxFollowUps agent request context token w
  = (Returned None,
     {| store := s';
        trace := trace w
                 ++ Eff (Wrote (vscode.progress "Processing request...")) :: evs |}).
Proof.
  intros Hall. unfold handler, handlers.
  unfold bind at 1, emit at 1. unfold bind at 1.
  rewrite <- (app_nil_r [hiddenOwner; benchmarker; visibleOwner]).
  rewrite (tryHandlers_skip _ _ _ _ _ _ _ Hall). simpl. unfold ret.
  by rewrite <- app_assoc.
Qed.

(** C4. The first thing a run of [handler] does is to write the progress
    message on the response stream; the call of the first owner comes
    right after it, and every call of an owner comes after it. *)
Theorem handler_progress_first request context token w :
  exists evs,
    trace (snd (handler maxFollowUps agent request context token w))
      = trace w ++ evs
    /\ evs !! 0%nat = Some (Eff (Wrote (vscode.progress "Processing request...")))
    /\ evs !! 1%nat
       = Some (CallHandleRequestOrPrompt hiddenOwner
                 (agentRequestOf request context token) [])
    /\ forall i o r c,
         evs !! i = Some (CallHandleRequestOrPrompt o r c) -> (1 <= i)%nat.
Proof.
  unfold handler, handlers.
  unfold bind at 1, emit at 1. unfold bind at 1.
  set (w1 := {| store := store w;
                trace := trace w ++ [Eff (Wrote (vscode.progress "Processing request..."))] |}).
  set (request' := agentRequestOf request context token).
  assert (Hrest : exists rest,
             trace (snd (tryHandlers agent [hiddenOwner; benchmarker; visibleOwner]
                           request' w1))
             = trace w1 ++ CallHandleRequestOrPrompt hiddenOwner request' [] :: rest).
  { simpl. unfold bind at 1, callHandleRequestOrPrompt at 1.
    destruct (handleRequestOrPrompt (owner agent hiddenOwner) request' [] (store w1))
      as [[out effs] s1].
    destruct out as [[l|]|e]; simpl; [by eexists| |by eexists].
    destruct (tryHandlers_trace agent request' [benchmarker; visibleOwner]
                {| store := s1;
                   trace := trace w1 ++ CallHandleRequestOrPrompt hiddenOwner request' []
                              :: map Eff effs |}) as (evs & Htr & _).
    simpl in Htr. rewrite Htr. rewrite <- app_assoc. by eexists. }
  destruct Hrest as [rest Hrest].
  exists (Eff (Wrote (vscode.progress "Processing request..."))
            :: CallHandleRequestOrPrompt hiddenOwner request' [] :: rest).
  assert (Htrace :
    trace (snd (
      match tryHandlers agent [hiddenOwner; benchmarker; visibleOwner] request' w1 with
      | (Returned a, w') =>
          match a with
          | Some l =>
              let* obj := deref l
              in let* _ := assign l (setFollowUp obj
                             ((fun f => slice f 0 maxFollowUps) <$> followUp obj))
              in ret (Some (chatAgentResult obj))
          | None => ret None
          end w'
      | (Threw e, w') => (Threw e, w')
      end))
    = trace (snd (tryHandlers agent [hiddenOwner; benchmarker; visibleOwner] request' w1))).
  { destruct (tryHandlers agent [hiddenOwner; benchmarker; visibleOwner] request' w1)
      as [[[l|]|e] w2]; simpl; try reflexivity.
    unfold bind, deref, assign, ret.
    destruct (heap (store w2) !! l); reflexivity. }
  split.
  - rewrite Htrace, Hrest. simpl. by rewrite <- app_assoc.
  - split; [reflexivity|]. split; [reflexivity|].
    intros [|i] o r c Hi; [discriminate|lia].
Qed.

End HandlerClaims.

(** C1 at work: the hidden owner is silent, the benchmarker answers, and the
    user-visible owner, which would fail, is not called. *)
Lemma handler_first_owner_wins_witness :
  fst (handler 3 Samples.benchmarkAgent Samples.someRequest Samples.noContext
         Samples.liveToken Samples.emptyWorld)
    = Returned (Some Samples.plainResult)
  /\ calledOwners
       (drop 0
          (trace (snd (handler 3 Samples.benchmarkAgent Samples.someRequest
                         Samples.noContext Samples.liveToken Samples.emptyWorld))))
     = [hiddenOwner; benchmarker].
Proof.
  destruct (handler_first_owner_wins 3 Samples.benchmarkAgent Samples.someRequest
              Samples.noContext Samples.liveToken Samples.emptyWorld
              [hiddenOwner] benchmarker [visibleOwner]
              (store Samples.emptyWorld)
              [CallHandleRequestOrPrompt hiddenOwner
                 (agentRequestOf Samples.someRequest Samples.noContext Samples.liveToken) []]
              0%nat [Wrote (vscode.markdown "done")]
              {| heap := <[0%nat := Samples.chattyResult]> ∅; priv := tt |}
              Samples.chattyResult) as (Hres & Hcalls & _).
  - reflexivity.
  - apply (unresolvedBy_cons Samples.benchmarkAgent _ hiddenOwner []
             (store Samples.emptyWorld) [] (store Samples.emptyWorld) []
             (store Samples.emptyWorld)).
    + reflexivity.
    + apply unresolvedBy_nil.
  - reflexivity.
  - vm_compute. reflexivity.
  - split; [exact Hres | exact Hcalls].
Defined.

(** C2 at work: five follow-ups are supplied, three are kept. *)
Lemma handler_trims_followUp_witness :
  exists obj',
    heap (store (snd (handler 3 Samples.benchmarkAgent Samples.someRequest
                        Samples.noContext Samples.liveToken Samples.emptyWorld)))
      !! 0%nat = Some obj'
    /\ followUp obj' = Some (take 3 Samples.fiveFollowUps).
Proof.
  destruct (handler_trims_followUp 3 Samples.benchmarkAgent Samples.someRequest
              Samples.noContext Samples.liveToken Samples.emptyWorld
              [hiddenOwner] benchmarker [visibleOwner]
              (store Samples.emptyWorld)
              [CallHandleRequestOrPrompt hiddenOwner
                 (agentRequestOf Samples.someRequest Samples.noContext Samples.liveToken) []]
              0%nat [Wrote (vscode.markdown "done")]
              {| heap := <[0%nat := Samples.chattyResult]> ∅; priv := tt |}
              Samples.chattyResult) as (obj' & Hheap & _ & Htrim & _).
  - lia.
  - reflexivity.
  - apply (unresolvedBy_cons Samples.benchmarkAgent _ hiddenOwner []
             (store Samples.emptyWorld) [] (store Samples.emptyWorld) []
             (store Samples.emptyWorld)).
    + reflexivity.
    + apply unresolvedBy_nil.
  - reflexivity.
  - vm_compute. reflexivity.
  - exists obj'. split; [exact Hheap | exact Htrim].
Defined.

(** C3 at work: three silent owners give an empty turn. *)
Lemma handler_all_unresolved_witness :
  fst (handler 3 Samples.silentAgent Samples.someRequest Samples.noContext
         Samples.liveToken Samples.emptyWorld) = Returned None.
Proof.
  rewrite (handler_all_unresolved 3 Samples.silentAgent Samples.someRequest
             Samples.noContext Samples.liveToken Samples.emptyWorld
             [CallHandleRequestOrPrompt hiddenOwner
                (agentRequestOf Samples.someRequest Samples.noContext Samples.liveToken) [];
              CallHandleRequestOrPrompt benchmarker
                (agentRequestOf Samples.someRequest Samples.noContext Samples.liveToken) [];
              CallHandleRequestOrPrompt visibleOwner
                (agentRequestOf Samples.someRequest Samples.noContext Samples.liveToken) []]
             (store Samples.emptyWorld)).
  - reflexivity.
  - apply (unresolvedBy_cons Samples.silentAgent _ hiddenOwner _
             (store Samples.emptyWorld) [] (store Samples.emptyWorld) _
             (store Samples.emptyWorld)); [reflexivity|].
    apply (unresolvedBy_cons Samples.silentAgent _ benchmarker _
             (store Samples.emptyWorld) [] (store Samples.emptyWorld) _
             (store Samples.emptyWorld)); [reflexivity|].
    apply (unresolvedBy_cons Samples.silentAgent _ visibleOwner _
             (store Samples.emptyWorld) [] (store Samples.emptyWorld) []
             (store Samples.emptyWorld)); [reflexivity|].
    apply unresolvedBy_nil.
Defined.

(** ** The follow-up provider *)

Section FollowUpClaims.

Context {S : Type}.
Variable agent : Agent S.

Lemma tryProviders_win (result : ChatResult) token o rest s f s' tr :
  getFollowUpForLastHandledSlashCommand (owner agent o) result token s
    = (Returned (Some f), s') ->
  tryProviders agent (o :: rest) result token {| store := s; trace := tr |}
  = (Returned (Some f),
     {| store := s'; trace := tr ++ [CallGetFollowUp o result] |}).
Proof.
  intros Hcall. simpl. unfold bind, callGetFollowUp. simpl. by rewrite Hcall.
Qed.

Lemma followUpProvider_defined (result : ChatResult) token w :
  fst (followUpProvider agent result token w) <> Returned None.
Proof.
  unfold followUpProvider, bind.
  destruct (tryProviders agent providers result token w) as [[[f|]|e] w'];
    simpl; discriminate.
Qed.

(** C10. [followUpProvider] never returns [undefined]. It asks the hidden
    owner, the benchmarker and the user-visible owner in that order, each
    from the store the previous one left; the first list it is given,
    empty or not, is returned and the later owners are not asked; when
    every owner answers [undefined] the empty list is returned. *)
Theorem followUpProvider_first_list_or_empty (result : ChatResult) token w :
  fst (followUpProvider agent result token w) <> Returned None
  /\ (forall before p after s1 evs f s2,
        [hiddenOwner; benchmarker; visibleOwner] = before ++ p :: after ->
        noFollowUpFrom agent result token before (store w) evs s1 ->
        getFollowUpForLastHandledSlashCommand (owner agent p) result token s1
          = (Returned (Some f), s2) ->
        followUpProvider agent result token w
          = (Returned (Some f),
             {| store := s2;
                trace := trace w ++ evs ++ [CallGetFollowUp p result] |})
        /\ consultedOwners (evs ++ [CallGetFollowUp p result]) = before ++ [p])
  /\ (forall evs s',
        noFollowUpFrom agent result token [hiddenOwner; benchmarker; visibleOwner]
          (store w) evs s' ->
        followUpProvider agent result token w
          = (Returned (Some []), {| store := s'; trace := trace w ++ evs |})).
Proof.
  split; [apply followUpProvider_defined|]. split.
  - intros before p after s1 evs f s2 Hsplit Hbefore Hwin.
    split.
    + unfold followUpProvider, providers. rewrite Hsplit.
      unfold bind at 1. destruct w as [s0 tr0]. simpl in Hbefore.
      rewrite (tryProviders_skip _ _ _ _ _ _ _ _ Hbefore).
      rewrite (tryProviders_win _ _ _ _ _ _ _ _ Hwin).
      unfold ret. simpl. by rewrite <- app_assoc.
    + rewrite consultedOwners_app.
      by rewrite (noFollowUpFrom_consulted _ _ _ _ _ _ _ Hbefore).
  - intros evs s' Hall.
    unfold followUpProvider, providers. unfold bind at 1.
    destruct w as [s0 tr0]. simpl in Hall.
    rewrite <- (app_nil_r [hiddenOwner; benchmarker; visibleOwner]).
    by rewrite (tryProviders_skip _ _ _ _ _ _ _ _ Hall).
Qed.

End FollowUpClaims.

(** C10 at work: the benchmarker answers with the empty list, which is
    returned, and the user-visible owner, which would fail, is not asked;
    three silent owners give the empty list as well. *)
Lemma followUpProvider_first_list_or_empty_witness :
  followUpProvider Samples.benchmarkAgent Samples.plainResult Samples.liveToken
    Samples.emptyWorld
  = (Returned (Some []),
     {| store := store Samples.emptyWorld;
        trace := [CallGetFollowUp hiddenOwner Samples.plainResult;
                  CallGetFollowUp benchmarker Samples.plainResult] |})
  /\ fst (followUpProvider Samples.silentAgent Samples.plainResult Samples.liveToken
            Samples.emptyWorld) = Returned (Some []).
Proof.
  split.
  - destruct (followUpProvider_first_list_or_empty Samples.benchmarkAgent
                Samples.plainResult Samples.liveToken Samples.emptyWorld)
      as (_ & Hfirst & _).
    destruct (Hfirst [hiddenOwner] benchmarker [visibleOwner]
                (store Samples.emptyWorld)
                [CallGetFollowUp hiddenOwner Samples.plainResult] []
                (store Samples.emptyWorld)) as [Hrun _].
    + reflexivity.
    + apply (noFollowUpFrom_cons Samples.benchmarkAgent _ _ hiddenOwner []
               (store Samples.emptyWorld) (store Samples.emptyWorld) []
               (store Samples.emptyWorld)); [reflexivity|].
      apply noFollowUpFrom_nil.
    + reflexivity.
    + exact Hrun.
  - destruct (followUpProvider_first_list_or_empty Samples.silentAgent
                Samples.plainResult Samples.liveToken Samples.emptyWorld)
      as (_ & _ & Hnone).
    rewrite (Hnone [CallGetFollowUp hiddenOwner Samples.plainResult;
                    CallGetFollowUp benchmarker Samples.plainResult;
                    CallGetFollowUp visibleOwner Samples.plainResult]
               (store Samples.emptyWorld)).
    + reflexivity.
    + apply (noFollowUpFrom_cons Samples.silentAgent _ _ hiddenOwner _
               (store Samples.emptyWorld) (store Samples.emptyWorld) _
               (store Samples.emptyWorld)); [reflexivity|].
      apply (noFollowUpFrom_cons Samples.silentAgent _ _ benchmarker _
               (store Samples.emptyWorld) (store Samples.emptyWorld) _
               (store Samples.emptyWorld)); [reflexivity|].
      apply (noFollowUpFrom_cons Samples.silentAgent _ _ visibleOwner _
               (store Samples.emptyWorld) (store Samples.emptyWorld) []
               (store Samples.emptyWorld)); [reflexivity|].
      apply noFollowUpFrom_nil.
Defined.

(** * Properties of the owners *)

Import SlashCommands.

Section OwnerFacts.

Variable cacheCapacity : nat.
Variable host : Host.

(** The state of the coordinator after a commit. *)
Lemma commit_heap l obj chain (s : Store Coordinator) :
  heap (commit cacheCapacity l obj chain s) !! l
  = Some (withMetadata obj chain (pretty (nextResultId (priv s)))).
Proof. unfold commit. simpl. apply lookup_insert_eq. Qed.

Lemma commit_next l obj chain (s : Store Coordinator) :
  nextResultId (priv (commit cacheCapacity l obj chain s))
  = Datatypes.S (nextResultId (priv s)).
Proof. reflexivity. Qed.

Lemma commit_resolved chain path l obj (s0 s : Store Coordinator) :
  (nextResultId (priv s0) <= nextResultId (priv s))%nat ->
  exists obj' m,
    heap (commit cacheCapacity l obj (chain ++ path) s) !! l = Some obj'
    /\ metadata (chatAgentResult obj') = Some m
    /\ handlerChain m = Some (chain ++ path)
    /\ resultId m
       = Some (pretty (nextResultId
                         (priv (commit cacheCapacity l obj (chain ++ path) s)) - 1)%nat)
    /\ (nextResultId (priv s0)
        < nextResultId (priv (commit cacheCapacity l obj (chain ++ path) s)))%nat
    /\ ((0 < cacheCapacity)%nat ->
        exists older,
          recentResults (priv (commit cacheCapacity l obj (chain ++ path) s))
          = (pretty (nextResultId
                       (priv (commit cacheCapacity l obj (chain ++ path) s)) - 1)%nat,
             l) :: older).
Proof.
  intros Hle.
  exists (withMetadata obj (chain ++ path) (pretty (nextResultId (priv s)))).
  eexists. split; [apply commit_heap|]. split; [reflexivity|].
  rewrite commit_next. simpl. rewrite Nat.sub_0_r.
  split; [reflexivity|]. split; [reflexivity|]. split; [lia|].
  intros Hcap. destruct cacheCapacity as [|k]; [lia|]. simpl. by eexists.
Qed.

(** A dispatch never throws, and it never takes an id back. *)
Lemma dispatch_returns o :
  forall request chain (s : Store Coordinator),
  exists r effs s',
    dispatch cacheCapacity host o request chain s = (Returned r, effs, s')
    /\ (nextResultId (priv s) <= nextResultId (priv s'))%nat.
Proof.
  induction o as [r d c handlers IH | run | refine inner IH]
    using Owner_mut
    with (P0 := fun h =>
            match h with
            | Terminal _ => True
            | Nested _ inner =>
                forall request chain (s : Store Coordinator),
                exists r effs s',
                  dispatch cacheCapacity host inner request chain s
                  = (Returned r, effs, s')
                  /\ (nextResultId (priv s) <= nextResultId (priv s'))%nat
            end); [|exact I|exact IH].
  intros request chain s. simpl.
  destruct (resolve r d c request) as [[n ref|] effs0]; [|by eauto 6].
  destruct (gated r ref host) as [msg|].
  { do 3 eexists. split; [reflexivity|]. rewrite commit_next. lia. }
  specialize (IH ref). destruct (handlers ref) as [run|refine inner].
  - destruct (run request (chain ++ [n])) as [[[obj|]|e] parts].
    + do 3 eexists. split; [reflexivity|]. rewrite commit_next. lia.
    + by eauto 6.
    + by eauto 6.
  - destruct (IH (refine request) (chain ++ [n]) s) as (res & effs' & s' & -> & Hle).
    destruct res as [l|]; [|by eauto 6].
    destruct (heap s' !! l) as [obj|]; [|by eauto 6].
    do 3 eexists. split; [reflexivity|]. rewrite commit_next. lia.
Qed.

Lemma dispatch_resolved o :
  forall request chain (s : Store Coordinator) l effs s',
    dispatch cacheCapacity host o request chain s = (Returned (Some l), effs, s') ->
    resolvedPost cacheCapacity host o request chain s l s'.
Proof.
  induction o as [r d c handlers IH | run | refine inner IH]
    using Owner_mut
    with (P0 := fun h =>
            match h with
            | Terminal _ => True
            | Nested _ inner =>
                forall request chain (s : Store Coordinator) l effs s',
                  dispatch cacheCapacity host inner request chain s
                  = (Returned (Some l), effs, s') ->
                  resolvedPost cacheCapacity host inner request chain s l s'
            end); [|exact I|exact IH].
  intros request chain s l effs s' Hrun. simpl in Hrun.
  unfold resolvedPost. simpl delegationPath.
  destruct (resolve r d c request) as [[n ref|] effs0]; [|by inversion Hrun].
  destruct (gated r ref host) as [msg|].
  { inversion Hrun; subst. by apply commit_resolved. }
  specialize (IH ref). destruct (handlers ref) as [run|refine inner].
  - destruct (run request (chain ++ [n])) as [[[obj|]|e] parts];
      inversion Hrun; subst.
    by apply commit_resolved.
  - destruct (dispatch cacheCapacity host inner (refine request) (chain ++ [n]) s)
      as [[res effs'] s1] eqn:Hinner.
    destruct res as [[l1|]|e]; [|by inversion Hrun|by inversion Hrun].
    destruct (heap s1 !! l1) as [obj|] eqn:Hobj; inversion Hrun; subst.
    destruct (IH _ _ _ _ _ _ Hinner)
      as (obj1 & m & Hobj1 & Hmeta & Hchain & _ & Hlt & _).
    rewrite Hobj in Hobj1. inversion Hobj1; subst obj1.
    unfold returnedChain. rewrite Hmeta, Hchain. simpl.
    rewrite drop_app_length.
    replace ((chain ++ [n]) ++ delegationPath host inner (refine request))
      with (chain ++ n :: delegationPath host inner (refine request))
      by (by rewrite <- app_assoc).
    apply commit_resolved. lia.
Qed.

(** Registration keeps the order in which the commands arrive. *)
Lemma registerAll_commands cs :
  forall r r',
    registerAll cs r = inr r' ->
    commands r' = commands r ++ map (fun c => (name (descriptor c), c)) cs.
Proof.
  induction cs as [|c cs IH]; intros r r' Hreg; simpl in Hreg.
  - inversion Hreg. by rewrite app_nil_r.
  - unfold register in Hreg.
    destruct (get (name (descriptor c)) r); [discriminate|].
    apply IH in Hreg. rewrite Hreg. simpl. by rewrite <- app_assoc.
Qed.

(** A dispatch that produces a result selected a command first. *)
Lemma dispatch_resolved_selected o request chain (s : Store Coordinator) l effs s' :
  dispatch cacheCapacity host o request chain s = (Returned (Some l), effs, s') ->
  exists top rest ref effs0,
    resolveOwner o request = (Selected top ref, effs0)
    /\ delegationPath host o request = top :: rest.
Proof.
  destruct o as [r d c handlers]. simpl. intros Hrun.
  destruct (resolve r d c request) as [[n ref|] effs0]; [|by inversion Hrun].
  by repeat eexists.
Qed.

Lemma lookupResult_head id l older :
  lookupResult id ((id, l) :: older) = Some l.
Proof. simpl. by rewrite decide_True. Qed.

(** The ids of a sequence of dispatches are drawn, in increasing order,
    from the ids the process had not used yet. *)
Lemma dispatchSequence_ids jobs :
  forall (s : Store Coordinator) out s',
    dispatchSequence cacheCapacity host jobs s = (out, s') ->
    (nextResultId (priv s) <= nextResultId (priv s'))%nat
    /\ NoDup (omap snd out)
    /\ (forall id, id ∈ omap snd out ->
          exists k, id = pretty k
                    /\ (nextResultId (priv s) <= k < nextResultId (priv s'))%nat)
    /\ (forall i l x, out !! i = Some (Some l, x) -> is_Some x).
Proof.
  induction jobs as [|[o request] jobs IH]; intros s out s' Hrun; simpl in Hrun.
  - inversion Hrun; subst. split; [lia|]. split; [constructor|].
    split; [intros id Hid; by apply elem_of_nil in Hid|].
    intros i l x Hi. by rewrite lookup_nil in Hi.
  - destruct (dispatch_returns o request [] s) as (res & effs & s1 & Hd & Hle).
    rewrite Hd in Hrun.
    destruct (dispatchSequence cacheCapacity host jobs s1) as [out1 s2] eqn:Hrest.
    destruct (IH _ _ _ Hrest) as (Hle1 & Hnodup & Hrange & Hsome).
    destruct res as [l|]; inversion Hrun; subst; clear Hrun.
    + destruct (dispatch_resolved o _ _ _ _ _ _ Hd)
        as (obj & m & Hobj & Hmeta & _ & Hid & Hlt & _).
      assert (Hat : resultIdAt l s1
                    = Some (pretty (nextResultId (priv s1) - 1)%nat)).
      { unfold resultIdAt. rewrite Hobj. simpl. rewrite Hmeta. simpl. exact Hid. }
      rewrite Hat. simpl. split; [lia|]. split.
      * constructor; [|done]. intros Hin.
        destruct (Hrange _ Hin) as (k & Hk & Hbounds).
        apply (inj pretty) in Hk. lia.
      * split.
        -- intros id Hid'. apply elem_of_cons in Hid' as [->|Hin].
           ++ eexists. split; [reflexivity|]. lia.
           ++ destruct (Hrange _ Hin) as (k & Hk & Hbounds).
              exists k. split; [done|]. lia.
        -- intros [|i] l' x Hi; simpl in Hi.
           ++ inversion Hi. by eexists.
           ++ by eapply Hsome.
    + simpl. split; [lia|]. split; [done|]. split.
      * intros id Hin. destruct (Hrange _ Hin) as (k & Hk & Hbounds).
        exists k. split; [done|]. lia.
      * intros [|i] l' x Hi; simpl in Hi; [by inversion Hi|]. by eapply Hsome.
Qed.

End OwnerFacts.

(** ** Resolution, failure handling, result ids and chains *)

Section OwnerClaims.

Variable cacheCapacity : nat.
Variable host : Host.

(** C5. A request whose explicit command is in the registry resolves to
    that command, whatever the prompt, whether or not intent detection is
    enabled and whatever the classifier would answer; the classifier is
    not called. *)
Theorem explicit_command_selected (r : Registry) (disableIntentDetection : bool)
    (classify : Classifier) (request : AgentRequest) (c : string) :
  command request = Some c ->
  is_Some (get c r) ->
  resolve r disableIntentDetection classify request
  = (Selected c (ForCommand c), []).
Proof.
  intros Hcmd [cfg Hget]. unfold resolve. by rewrite Hcmd, Hget.
Qed.

(** C7. An owner never lets an exception out. When the handler it selected
    throws, the owner returns [undefined] and leaves the store as it
    found it, which is also what it does when no command matches. *)
Theorem failing_handler_is_unresolved (o : Owner) (request : AgentRequest)
    (chain : list string) (s : Store Coordinator) :
  (forall e, fst (fst (dispatch cacheCapacity host o request chain s)) <> Threw e)
  /\ (forall n ref effs run e parts,
        resolveOwner o request = (Selected n ref, effs) ->
        gated (registry o) ref host = None ->
        handlerOf o ref = Terminal run ->
        run request (chain ++ [n]) = (Threw e, parts) ->
        fst (fst (dispatch cacheCapacity host o request chain s)) = Returned None
        /\ snd (dispatch cacheCapacity host o request chain s) = s)
  /\ (forall effs,
        resolveOwner o request = (Unresolved, effs) ->
        fst (fst (dispatch cacheCapacity host o request chain s)) = Returned None
        /\ snd (dispatch cacheCapacity host o request chain s) = s).
Proof.
  split.
  - intros e.
    destruct (dispatch_returns cacheCapacity host o request chain s)
      as (res & effs & s' & -> & _).
    discriminate.
  - destruct o as [r d c handlers]. simpl. split.
    + intros n ref effs run e parts Hres Hgate Hh Hrun.
      by rewrite Hres, Hgate, Hh, Hrun.
    + intros effs Hres. by rewrite Hres.
Qed.

(** C8. In a sequence of dispatches of one process every dispatch that
    produces a result gives it a result id, and no two of these ids are
    equal. Right after a dispatch the follow-up lookup for the result it
    produced returns that result's follow-ups (when the cache holds at
    least one entry); in general the lookup returns the follow-ups of the
    entry cached under the result's id, and it returns [undefined],
    without throwing, when the id is not in the cache or the result has
    none. *)
Theorem resultId_fresh_and_followUp_lookup (token : vscode.CancellationToken) :
  (forall jobs (s : Store Coordinator),
      let out := fst (dispatchSequence cacheCapacity host jobs s) in
      length out = length jobs
      /\ (forall i l x, out !! i = Some (Some l, x) -> is_Some x)
      /\ NoDup (omap snd out))
  /\ (forall o request chain (s : Store Coordinator) l effs s',
        (0 < cacheCapacity)%nat ->
        dispatch cacheCapacity host o request chain s
          = (Returned (Some l), effs, s') ->
        exists obj,
          heap s' !! l = Some obj
          /\ getFollowUp (chatAgentResult obj) token s'
             = (Returned (followUp obj), s'))
  /\ (forall (result : ChatResult) (s : Store Coordinator) id l obj,
        metadata result ≫= resultId = Some id ->
        lookupResult id (recentResults (priv s)) = Some l ->
        heap s !! l = Some obj ->
        getFollowUp result token s = (Returned (followUp obj), s))
  /\ (forall (result : ChatResult) (s : Store Coordinator),
        (forall id, metadata result ≫= resultId = Some id ->
                    lookupResult id (recentResults (priv s)) = None) ->
        getFollowUp result token s = (Returned None, s)).
Proof.
  split; [|split; [|split]].
  - intros jobs s out. subst out.
    destruct (dispatchSequence cacheCapacity host jobs s) as [out s'] eqn:Hrun.
    destruct (dispatchSequence_ids cacheCapacity host jobs s out s' Hrun)
      as (_ & Hnodup & _ & Hsome).
    simpl. split; [|by split].
    clear Hnodup Hsome. revert s out s' Hrun.
    induction jobs as [|[o request] jobs IH]; intros s out s' Hrun;
      simpl in Hrun; [by inversion Hrun|].
    destruct (dispatch cacheCapacity host o request [] s) as [[res effs] s1].
    destruct (dispatchSequence cacheCapacity host jobs s1) as [out1 s2] eqn:Hrest.
    specialize (IH _ _ _ Hrest).
    destruct res as [[l|]|e]; inversion Hrun; subst; simpl; by rewrite IH.
  - intros o request chain s l effs s' Hcap Hrun.
    destruct (dispatch_resolved cacheCapacity host o _ _ _ _ _ _ Hrun)
      as (obj & m & Hobj & Hmeta & _ & Hid & _ & Hcache).
    destruct (Hcache Hcap) as [older Holder].
    exists obj. split; [done|].
    unfold getFollowUp. rewrite Hmeta. simpl. rewrite Hid, Holder.
    by rewrite lookupResult_head, Hobj.
  - intros result s id l obj Hid Hl Hobj.
    unfold getFollowUp. by rewrite Hid, Hl, Hobj.
  - intros result s Hunknown. unfold getFollowUp.
    destruct (metadata result ≫= resultId) as [id|]; [|done].
    by rewrite (Hunknown id eq_refl).
Qed.

End OwnerClaims.

(** ** Chains across the router and the owners *)

Section ChainClaims.

Variable maxFollowUps : Z.
Variable cacheCapacity : nat.
Variable host : Host.
Variables hidden bench visible : Owner.

Lemma owner_agentOf (o : OwnerName) :
  handleRequestOrPrompt (owner (agentOf cacheCapacity host hidden bench visible) o)
  = dispatch cacheCapacity host (ownerOf hidden bench visible o).
Proof. by destruct o. Qed.

(** C9. The router passes an empty chain to every owner it calls. The
    chain recorded on the result that [handler] returns is the delegation
    path of the owner that resolved the request: one name per level of
    nested delegation, the outer name before the inner one, and its first
    name is the command selected by the owner the router called. *)
Theorem handlerChain_records_delegation request context token w r w' :
  handler maxFollowUps (agentOf cacheCapacity host hidden bench visible)
    request context token w = (Returned (Some r), w') ->
  (forall i o rq c,
      drop (length (trace w)) (trace w') !! i
        = Some (CallHandleRequestOrPrompt o rq c) -> c = [])
  /\ (exists winner top rest ref effs,
        (metadata r ≫= handlerChain)
          = Some (delegationPath host (ownerOf hidden bench visible winner)
                    (agentRequestOf request context token))
        /\ delegationPath host (ownerOf hidden bench visible winner)
             (agentRequestOf request context token) = top :: rest
        /\ resolveOwner (ownerOf hidden bench visible winner)
             (agentRequestOf request context token) = (Selected top ref, effs))
  /\ (forall o rq n ref effs refine inner,
        resolveOwner o rq = (Selected n ref, effs) ->
        gated (registry o) ref host = None ->
        handlerOf o ref = Nested refine inner ->
        delegationPath host o rq = n :: delegationPath host inner (refine rq)
        /\ length (delegationPath host o rq)
           = Datatypes.S (length (delegationPath host inner (refine rq)))).
Proof.
  intros Hrun. split; [|split].
  - destruct (handler_calls maxFollowUps
                (agentOf cacheCapacity host hidden bench visible)
                request context token w) as (evs & Htr & Hevs).
    rewrite Hrun in Htr. simpl in Htr. rewrite Htr, drop_app_length.
    intros i o rq c Hi. by destruct (Hevs _ _ _ _ Hi).
  - apply handler_inv in Hrun
      as (l & obj & before & winner & after & s1 & evs & effs & s2
          & _ & _ & Hwin & Hobj & ->).
    rewrite owner_agentOf in Hwin.
    destruct (dispatch_resolved cacheCapacity host _ _ _ _ _ _ _ Hwin)
      as (obj' & m & Hobj' & Hmeta & Hchain & _).
    rewrite Hobj in Hobj'. inversion Hobj'; subst obj'.
    simpl in Hchain.
    destruct (dispatch_resolved_selected cacheCapacity host _ _ _ _ _ _ _ Hwin)
      as (top & rest & ref & effs0 & Hres & Hpath).
    exists winner, top, rest, ref, effs0.
    rewrite Hmeta. simpl. by rewrite Hchain.
  - intros [rg d c handlers] rq n ref effs refine inner Hres Hgate Hh.
    simpl in *. by rewrite Hres, Hgate, Hh.
Qed.

(** The trim of the router is what the follow-up provider later sees: the
    cache of the owners holds the very object the router trimmed. *)
Lemma followUps_after_handler_bounded request context token token' w r w' :
  0 <= maxFollowUps ->
  (0 < cacheCapacity)%nat ->
  handler maxFollowUps (agentOf cacheCapacity host hidden bench visible)
    request context token w = (Returned (Some r), w') ->
  exists fs,
    fst (followUpProvider (agentOf cacheCapacity host hidden bench visible)
           r token' w') = Returned (Some fs)
    /\ Z.of_nat (length fs) <= maxFollowUps.
Proof.
  intros Hmax Hcap Hrun.
  destruct (handler_inv _ _ _ _ _ _ _ _ Hrun)
    as (l & obj & before & winner & after & s1 & evs & effs & s2
        & Hsplit & Hbefore & Hwin & Hobj & ->).
  rewrite (handler_resolved _ _ _ _ _ _ _ _ _ _ _ _ _ _ _ Hsplit Hbefore Hwin Hobj)
    in Hrun.
  inversion Hrun as [Hw']; clear Hrun. clear Hw'.
  rewrite owner_agentOf in Hwin.
  destruct (dispatch_resolved cacheCapacity host _ _ _ _ _ _ _ Hwin)
    as (obj' & m & Hobj' & Hmeta & _ & Hid & _ & Hcache).
  rewrite Hobj in Hobj'. inversion Hobj'; subst obj'.
  destruct (Hcache Hcap) as [older Holder].
  set (s3 := {| heap := <[l := setFollowUp obj
                              ((fun f => slice f 0 maxFollowUps) <$> followUp obj)]>
                          (heap s2);
                priv := priv s2 |}).
  assert (Hlook : getFollowUp (chatAgentResult obj) token' s3
                  = (Returned ((fun f => slice f 0 maxFollowUps) <$> followUp obj), s3)).
  { unfold getFollowUp. rewrite Hmeta. simpl. rewrite Hid, Holder.
    rewrite lookupResult_head. by rewrite lookup_insert_eq. }
  unfold followUpProvider, providers. cbn [tryProviders].
  unfold bind, callGetFollowUp, ret.
  cbn -[getFollowUp slice]. fold s3. rewrite Hlook.
  destruct (followUp obj) as [fs0|] eqn:Hfs; cbn -[getFollowUp slice].
  - eexists. split; [reflexivity|]. rewrite slice_from_start by done.
    rewrite length_take. lia.
  - rewrite Hlook. cbn -[getFollowUp slice]. rewrite Hlook.
    exists []. split; [reflexivity|]. simpl. lia.
Qed.

End ChainClaims.

(** ** The command listing *)

Section ListingClaims.

Context {S : Type}.
Variable agent : Agent S.

(** C6, as the code has it. [getCommands] lists one command per entry of
    the user-visible owner's registry, in the order of the registry (which
    is the order of registration), under the entry's name and with its
    [shortDescription] as description; the hidden owner and the
    benchmarker contribute nothing. *)
Theorem getCommands_lists_visible_registry (token : vscode.CancellationToken) :
  getCommands agent token
  = map (fun p => {| vscode.name := fst p;
                     vscode.description := shortDescription (snd p) |})
      (getSlashCommands (agentSlashCommandsOwner agent))
  /\ length (getCommands agent token)
     = length (getSlashCommands (agentSlashCommandsOwner agent))
  /\ (forall cs r,
        registerAll cs emptyRegistry = inr r ->
        getSlashCommands (agentSlashCommandsOwner agent) = list_ r ->
        getCommands agent token
        = map (fun cfg => {| vscode.name := name (descriptor cfg);
                             vscode.description := shortDescription cfg |}) cs)
  /\ (forall hidden' bench',
        getCommands
          {| agentSlashCommandsOwner := agentSlashCommandsOwner agent;
             agentBenchmarker := bench';
             agentHiddenSlashCommandsOwner := hidden' |} token
        = getCommands agent token).
Proof.
  assert (Hmap : getCommands agent token
                 = map (fun p => {| vscode.name := fst p;
                                    vscode.description := shortDescription (snd p) |})
                     (getSlashCommands (agentSlashCommandsOwner agent))).
  { unfold getCommands. apply map_ext. by intros [n cfg]. }
  split; [exact Hmap|]. split; [by rewrite Hmap, length_map|]. split; [|done].
  intros cs r Hreg Hlist. rewrite Hmap, Hlist. unfold list_.
  rewrite (registerAll_commands cs _ _ Hreg). simpl.
  rewrite map_map. by apply map_ext.
Qed.

End ListingClaims.

(** C6 at work: three commands registered in the order storage, help,
    broken are listed in that order with their short descriptions. *)
Lemma getCommands_lists_visible_registry_witness :
  getCommands Samples.registryAgent Samples.liveToken
  = [ {| vscode.name := "storage"; vscode.description := "Work with Azure Storage" |};
      {| vscode.name := "help"; vscode.description := "Get help with the agent" |};
      {| vscode.name := "broken";
         vscode.description := "A command whose handler fails" |} ].
Proof.
  destruct (getCommands_lists_visible_registry Samples.registryAgent Samples.liveToken)
    as (_ & _ & Horder & _).
  rewrite (Horder [Samples.storageCommand; Samples.helpCommand; Samples.brokenCommand]
             (Samples.registryOf
                [Samples.storageCommand; Samples.helpCommand; Samples.brokenCommand])).
  - reflexivity.
  - reflexivity.
  - reflexivity.
Defined.

(** C6 as the spec words it fails: the second component of a listed pair is
    the short description of the command, not its display name. *)
Lemma getCommands_displayName_counterexample :
  map (fun c => (vscode.name c, vscode.description c))
    (getCommands Samples.registryAgent Samples.liveToken)
  <> map (fun p => (fst p, displayName (descriptor (snd p))))
       (getSlashCommands (agentSlashCommandsOwner Samples.registryAgent)).
Proof. vm_compute. discriminate. Qed.

(** C5 at work: "help" is asked for by name; the prompt talks about storage
    and the classifier would pick "storage", but it is not consulted. *)
Lemma explicit_command_selected_witness :
  resolve (registry Samples.visibleSample) false Samples.eagerClassifier
    (Samples.ask (Some "help") "I want storage")
  = (Selected "help" (ForCommand "help"), []).
Proof.
  apply explicit_command_selected.
  - reflexivity.
  - vm_compute. by eexists.
Defined.

(** C7 at work: the handler of "broken" throws; the owner answers
    [undefined] and the process is as it was, just as the hidden owner does
    for a command it does not know. *)
Lemma failing_handler_is_unresolved_witness :
  (fst (fst (dispatch 4 Samples.sampleHost Samples.visibleSample
               (Samples.ask (Some "broken") "please") [] Samples.freshProcess))
     = Returned None
   /\ snd (dispatch 4 Samples.sampleHost Samples.visibleSample
             (Samples.ask (Some "broken") "please") [] Samples.freshProcess)
      = Samples.freshProcess)
  /\ (fst (fst (dispatch 4 Samples.sampleHost Samples.hiddenSample
                  (Samples.ask (Some "broken") "please") [] Samples.freshProcess))
        = Returned None
      /\ snd (dispatch 4 Samples.sampleHost Samples.hiddenSample
                (Samples.ask (Some "broken") "please") [] Samples.freshProcess)
         = Samples.freshProcess).
Proof.
  split.
  - destruct (failing_handler_is_unresolved 4 Samples.sampleHost Samples.visibleSample
                (Samples.ask (Some "broken") "please") [] Samples.freshProcess)
      as (_ & Hthrow & _).
    apply (Hthrow "broken" (ForCommand "broken") []
             (fun _ _ => (Threw (UserError "boom"), [])) (UserError "boom") []).
    + reflexivity.
    + reflexivity.
    + reflexivity.
    + reflexivity.
  - destruct (failing_handler_is_unresolved 4 Samples.sampleHost Samples.hiddenSample
                (Samples.ask (Some "broken") "please") [] Samples.freshProcess)
      as (_ & _ & Hnone).
    apply (Hnone []). reflexivity.
Defined.

(** C8 at work: three dispatches, two of which produce a result, with two
    different ids; the follow-ups of a fresh result are found again; a
    result with an id that was never given out has no follow-up. *)
Lemma resultId_fresh_and_followUp_lookup_witness :
  NoDup (omap snd
           (fst (dispatchSequence 4 Samples.sampleHost
                   [(Samples.visibleSample, Samples.ask (Some "storage") "x");
                    (Samples.visibleSample, Samples.ask (Some "broken") "x");
                    (Samples.visibleSample, Samples.ask None "")]
                   Samples.freshProcess)))
  /\ (exists obj,
        heap (snd (dispatch 4 Samples.sampleHost Samples.visibleSample
                     (Samples.ask (Some "help") "x") [] Samples.freshProcess))
          !! 0%nat = Some obj
        /\ getFollowUp (chatAgentResult obj) Samples.liveToken
             (snd (dispatch 4 Samples.sampleHost Samples.visibleSample
                     (Samples.ask (Some "help") "x") [] Samples.freshProcess))
           = (Returned (followUp obj),
              snd (dispatch 4 Samples.sampleHost Samples.visibleSample
                     (Samples.ask (Some "help") "x") [] Samples.freshProcess)))
  /\ getFollowUp Samples.strangerResult Samples.liveToken
       (snd (dispatch 4 Samples.sampleHost Samples.visibleSample
               (Samples.ask (Some "help") "x") [] Samples.freshProcess))
     = (Returned None,
        snd (dispatch 4 Samples.sampleHost Samples.visibleSample
               (Samples.ask (Some "help") "x") [] Samples.freshProcess)).
Proof.
  destruct (resultId_fresh_and_followUp_lookup 4 Samples.sampleHost Samples.liveToken)
    as (Hfresh & Hround & _ & Hunknown).
  split; [|split].
  - apply Hfresh.
  - apply (Hround Samples.visibleSample (Samples.ask (Some "help") "x") []
             Samples.freshProcess 0%nat [Invoke "help" ["help"]]).
    + lia.
    + vm_compute. reflexivity.
  - apply Hunknown. intros id Hid. vm_compute in Hid. inversion Hid.
    vm_compute. reflexivity.
Defined.

(** C9 at work: "storage" routes into the nested owner, which selects
    "createAccount"; the returned result records a chain of that delegation,
    one name longer than the path inside the nested owner. *)
Lemma handlerChain_records_delegation_witness :
  (exists winner,
      Some ["storage"; "createAccount"]
      = Some (delegationPath Samples.sampleHost
                (ownerOf Samples.hiddenSample Samples.benchmarkSample
                   Samples.visibleSample winner)
                (agentRequestOf
                   {| vscode.prompt := "hello"; vscode.command := Some "storage" |}
                   Samples.noContext Samples.liveToken)))
  /\ length (delegationPath Samples.sampleHost Samples.visibleSample
               (Samples.ask (Some "storage") "hello"))
     = Datatypes.S
         (length (delegationPath Samples.sampleHost Samples.storageOwner
                    (Samples.asCreateAccount (Samples.ask (Some "storage") "hello")))).
Proof.
  destruct (handlerChain_records_delegation 3 4 Samples.sampleHost
              Samples.hiddenSample Samples.benchmarkSample Samples.visibleSample
              {| vscode.prompt := "hello"; vscode.command := Some "storage" |}
              Samples.noContext Samples.liveToken Samples.freshWorld
              {| errorDetails := None;
                 metadata := Some {| handlerChain := Some ["storage"; "createAccount"];
                                     resultId := Some "1";
                                     additional := ∅ |} |}
              (snd (handler 3 Samples.registryAgent
                      {| vscode.prompt := "hello"; vscode.command := Some "storage" |}
                      Samples.noContext Samples.liveToken Samples.freshWorld)))
    as (_ & (winner & top & rest & ref & effs & Hchain & _) & Hstep).
  - vm_compute. reflexivity.
  - split.
    + exists winner. exact Hchain.
    + apply (Hstep Samples.visibleSample (Samples.ask (Some "storage") "hello")
               "storage" (ForCommand "storage") []
               Samples.asCreateAccount Samples.storageOwner).
      * reflexivity.
      * reflexivity.
      * reflexivity.
Defined.

(** The resolver on the registry with commands A and B, default A and
    no-input B. *)
Example resolve_no_input_goes_to_B :
  fst (resolve Samples.registryAB false Samples.eagerClassifier (Samples.ask None ""))
  = Selected "B" (ForCommand "B").
Proof. reflexivity. Qed.

Example resolve_unmatched_goes_to_default_A :
  resolve Samples.registryAB true Samples.eagerClassifier
    (Samples.ask None "some unmatched text")
  = (Selected "A" (ForCommand "A"), []).
Proof. reflexivity. Qed.

Example resolve_explicit_B :
  resolve Samples.registryAB false Samples.eagerClassifier
    (Samples.ask (Some "B") "irrelevant")
  = (Selected "B" (ForCommand "B"), []).
Proof. reflexivity. Qed.

(** A blank prompt is never sent to the classifier. *)
Example resolve_blank_prompt_not_classified :
  snd (resolve (registry Samples.hiddenSample) false Samples.eagerClassifier
         (Samples.ask None "   "))
  = [].
Proof. reflexivity. Qed.

(** The slicing of the router on short and long lists. *)
Example slice_keeps_short_list :
  slice [1; 2] 0 3 = [1; 2].
Proof. reflexivity. Qed.

Example slice_cuts_long_list :
  slice [1; 2; 3; 4; 5] 0 3 = [1; 2; 3].
Proof. reflexivity. Qed.

Example slice_negative_end :
  slice [1; 2; 3; 4; 5] 0 (-1) = [1; 2; 3; 4].
Proof. reflexivity. Qed.

(** * Further properties of the router *)

Section HandlerFurther.

Context {S : Type}.
Variable maxFollowUps : Z.
Variable agent : Agent S.

Lemma tryHandlers_throw request o rest (s : Store S) e effs s' tr :
  handleRequestOrPrompt (owner agent o) request [] s = (Threw e, effs, s') ->
  tryHandlers agent (o :: rest) request {| store := s; trace := tr |}
  = (Threw e,
     {| store := s';
        trace := tr ++ CallHandleRequestOrPrompt o request [] :: map Eff effs |}).
Proof.
  intros Hcall. simpl. unfold bind, callHandleRequestOrPrompt. simpl.
  by rewrite Hcall.
Qed.


(** The loop always calls the first owner of its list, and then some of
    the next ones in order. *)
Lemma tryHandlers_called_first request o rest (w : World S) :
  exists evs more,
    trace (snd (tryHandlers agent (o :: rest) request w)) = trace w ++ evs
    /\ calledOwners evs = o :: more
    /\ more `prefix_of` rest.
Proof.
  simpl. unfold bind at 1, callHandleRequestOrPrompt at 1.
  destruct (handleRequestOrPrompt (owner agent o) request [] (store w))
    as [[out effs] s1].
  assert (Hhere : calledOwners (CallHandleRequestOrPrompt o request [] :: map Eff effs)
                  = [o]).
  { change (calledOwners (CallHandleRequestOrPrompt o request [] :: map Eff effs))
      with (o :: calledOwners (map Eff effs)).
    by rewrite calledOwners_effects. }
  destruct out as [[l|]|e]; simpl.
  - do 2 eexists. split; [reflexivity|]. split; [exact Hhere|]. by exists rest.
  - destruct (tryHandlers_called_prefix agent request rest
                {| store := s1;
                   trace := trace w ++ CallHandleRequestOrPrompt o request []
                              :: map Eff effs |}) as (evs & Htr & Hpre).
    rewrite Htr. simpl. rewrite <- app_assoc.
    do 2 eexists. split; [reflexivity|].
    change (CallHandleRequestOrPrompt o request [] :: map Eff effs ++ evs)
      with ((CallHandleRequestOrPrompt o request [] :: map Eff effs) ++ evs).
    rewrite calledOwners_app, Hhere. by split.
  - do 2 eexists. split; [reflexivity|]. split; [exact Hhere|]. by exists rest.
Qed.

(** [xs.slice(0, end)] for any integer [end]. *)
Lemma slice_from_start_any {A : Type} (xs : list A) (n : Z) :
  slice xs 0 n
  = take (Z.to_nat (if n <? 0 then Z.of_nat (length xs) + n else n)) xs.
Proof.
  unfold slice, relative_index.
  destruct (Z.ltb_spec 0 0) as [?|_]; [lia|].
  rewrite (Z.min_l 0) by lia. simpl. rewrite drop_0, Z.sub_0_r.
  destruct (Z.ltb_spec n 0) as [Hneg|Hpos].
  - destruct (Z.max_spec (Z.of_nat (length xs) + n) 0) as [[Hlt ->]|[Hge ->]].
    + replace (Z.to_nat (Z.of_nat (length xs) + n)) with 0%nat by lia. done.
    + done.
  - destruct (Z.min_spec n (Z.of_nat (length xs))) as [[Hlt ->]|[Hge ->]]; [done|].
    rewrite Nat2Z.id. rewrite take_ge by lia. rewrite take_ge; [done|lia].
Qed.

(** X1. An owner that throws ends the turn: [handler] throws the same
    error, the owners after it are not called, and the router leaves the
    store as that owner left it (no follow-up is trimmed). *)
Theorem handler_owner_throw_propagates request context token w
    before thrower after s1 evs e effs s2 :
  [hiddenOwner; benchmarker; visibleOwner] = before ++ thrower :: after ->
  unresolvedBy agent (agentRequestOf request context token) before (store w) evs s1 ->
  handleRequestOrPrompt (owner agent thrower) (agentRequestOf request context token) [] s1
    = (Threw e, effs, s2) ->
  handler maxFollowUps agent request context token w
  = (Threw e,
     {| store := s2;
        trace := trace w
                 ++ Eff (Wrote (vscode.progress "Processing request...")) :: evs
                 ++ CallHandleRequestOrPrompt thrower
                      (agentRequestOf request context token) [] :: map Eff effs |})
  /\ calledOwners
       (Eff (Wrote (vscode.progress "Processing request...")) :: evs
        ++ CallHandleRequestOrPrompt thrower
             (agentRequestOf request context token) [] :: map Eff effs)
     = before ++ [thrower].
Proof.
  intros Hsplit Hbefore Hthrow. split.
  - unfold handler, handlers. rewrite Hsplit.
    unfold bind at 1, emit at 1. unfold bind at 1.
    rewrite (tryHandlers_skip _ _ _ _ _ _ _ Hbefore).
    rewrite (tryHandlers_throw _ _ _ _ _ _ _ _ Hthrow).
    do 2 f_equal. by rewrite <- !app_assoc.
  - change (calledOwners (?e0 :: ?t)) with (calledOwners t).
    rewrite calledOwners_app, (unresolvedBy_called _ _ _ _ _ _ Hbefore).
    change (calledOwners (CallHandleRequestOrPrompt ?o ?r ?c :: ?t))
      with (o :: calledOwners t).
    by rewrite calledOwners_effects.
Qed.


(** X3. The only thing the router changes in the store is the [followUp]
    of the result object it was handed: every other object, the chat result
    of that object and the private state of the owners are as the winning
    owner left them. *)
Theorem handler_touches_only_followUp request context token w
    before winner after s1 evs l effs s2 obj :
  [hiddenOwner; benchmarker; visibleOwner] = before ++ winner :: after ->
  unresolvedBy agent (agentRequestOf request context token) before (store w) evs s1 ->
  handleRequestOrPrompt (owner agent winner) (agentRequestOf request context token) [] s1
    = (Returned (Some l), effs, s2) ->
  heap s2 !! l = Some obj ->
  (forall l', l' <> l ->
     heap (store (snd (handler maxFollowUps agent request context token w))) !! l'
     = heap s2 !! l')
  /\ priv (store (snd (handler maxFollowUps agent request context token w)))
     = priv s2
  /\ exists obj',
       heap (store (snd (handler maxFollowUps agent request context token w))) !! l
         = Some obj'
       /\ chatAgentResult obj' = chatAgentResult obj.
Proof.
  intros Hsplit Hbefore Hwin Hobj.
  rewrite (handler_resolved _ _ _ _ _ _ _ _ _ _ _ _ _ _ _ Hsplit Hbefore Hwin Hobj).
  simpl. split; [|split; [reflexivity|]].
  - intros l' Hne. by apply lookup_insert_ne.
  - eexists. split; [apply lookup_insert_eq|reflexivity].
Qed.

(** X4. A result with no follow-ups, or with no more than [maxFollowUps] of
    them, goes through the router untouched: the store after [handler] is
    the store the winning owner left. *)
Theorem handler_short_followUp_untouched request context token w
    before winner after s1 evs l effs s2 obj :
  [hiddenOwner; benchmarker; visibleOwner] = before ++ winner :: after ->
  unresolvedBy agent (agentRequestOf request context token) before (store w) evs s1 ->
  handleRequestOrPrompt (owner agent winner) (agentRequestOf request context token) [] s1
    = (Returned (Some l), effs, s2) ->
  heap s2 !! l = Some obj ->
  (forall fs, followUp obj = Some fs -> Z.of_nat (length fs) <= maxFollowUps) ->
  store (snd (handler maxFollowUps agent request context token w)) = s2.
Proof.
  intros Hsplit Hbefore Hwin Hobj Hshort.
  rewrite (handler_resolved _ _ _ _ _ _ _ _ _ _ _ _ _ _ _ Hsplit Hbefore Hwin Hobj).
  simpl.
  assert (Hsame : setFollowUp obj ((fun f => slice f 0 maxFollowUps) <$> followUp obj)
                  = obj).
  { destruct obj as [r [fs|]]; unfold setFollowUp; simpl; [|done].
    specialize (Hshort fs eq_refl). simpl in Hshort.
    rewrite slice_from_start by lia. rewrite take_ge; [done|lia]. }
  rewrite Hsame, (insert_id _ _ _ Hobj). by destruct s2.
Qed.

(** X5. Whatever the sign of [maxFollowUps], the router only ever drops
    follow-ups from the end of the list: a non-negative maximum keeps that
    many of the first ones, a negative one drops that many of the last
    ones; a result without follow-ups stays without. *)
Theorem handler_followUp_any_maximum request context token w
    before winner after s1 evs l effs s2 obj :
  [hiddenOwner; benchmarker; visibleOwner] = before ++ winner :: after ->
  unresolvedBy agent (agentRequestOf request context token) before (store w) evs s1 ->
  handleRequestOrPrompt (owner agent winner) (agentRequestOf request context token) [] s1
    = (Returned (Some l), effs, s2) ->
  heap s2 !! l = Some obj ->
  exists obj',
    heap (store (snd (handler maxFollowUps agent request context token w))) !! l
      = Some obj'
    /\ match followUp obj with
       | None => followUp obj' = None
       | Some fs =>
           followUp obj'
           = Some (take (Z.to_nat (if maxFollowUps <? 0
                                   then Z.of_nat (length fs) + maxFollowUps
                                   else maxFollowUps)) fs)
           /\ (forall fs', followUp obj' = Some fs' -> fs' `prefix_of` fs)
       end.
Proof.
  intros Hsplit Hbefore Hwin Hobj.
  rewrite (handler_resolved _ _ _ _ _ _ _ _ _ _ _ _ _ _ _ Hsplit Hbefore Hwin Hobj).
  simpl. eexists. split; [apply lookup_insert_eq|]. simpl.
  destruct (followUp obj) as [fs|]; simpl; [|done].
  rewrite slice_from_start_any. split; [done|].
  intros fs' [= <-]. apply prefix_take.
Qed.

(** X6. For every request and whatever the owners do, the owners that get
    called are the first one, two or three of hidden owner, benchmarker,
    user-visible owner, in that order: none is skipped and none is called
    twice. *)
Theorem handler_calls_in_order request context token w :
  exists evs n,
    trace (snd (handler maxFollowUps agent request context token w)) = trace w ++ evs
    /\ (1 <= n <= 3)%nat
    /\ calledOwners evs = take n [hiddenOwner; benchmarker; visibleOwner].
Proof.
  unfold handler, handlers. unfold bind at 1, emit at 1. unfold bind at 1.
  destruct (tryHandlers_called_first (agentRequestOf request context token)
              hiddenOwner [benchmarker; visibleOwner]
              {| store := store w;
                 trace := trace w
                   ++ [Eff (Wrote (vscode.progress "Processing request..."))] |})
    as (evs & more & Htr & Hcalled & Hpre).
  exists (Eff (Wrote (vscode.progress "Processing request...")) :: evs),
         (Datatypes.S (length more)).
  split; [|split].
  - destruct (tryHandlers agent [hiddenOwner; benchmarker; visibleOwner]
                (agentRequestOf request context token) _)
      as [[[l|]|e] w2]; simpl in *.
    + unfold bind, deref, assign, ret.
      destruct (heap (store w2) !! l); simpl; rewrite Htr; by rewrite <- app_assoc.
    + rewrite Htr. by rewrite <- app_assoc.
    + rewrite Htr. by rewrite <- app_assoc.
  - apply prefix_length in Hpre. simpl in Hpre. lia.
  - change (calledOwners (?e0 :: ?t)) with (calledOwners t).
    rewrite Hcalled. simpl. f_equal.
    destruct Hpre as [k Hk]. rewrite Hk.
    by rewrite take_app_length.
Qed.


End HandlerFurther.

(** * Further properties of the follow-up provider *)

Section FollowUpFurther.

Context {S : Type}.
Variable agent : Agent S.

Lemma tryProviders_throw (result : ChatResult) tok o rest (s : Store S) e s' tr :
  getFollowUpForLastHandledSlashCommand (owner agent o) result tok s
    = (Threw e, s') ->
  tryProviders agent (o :: rest) result tok {| store := s; trace := tr |}
  = (Threw e, {| store := s'; trace := tr ++ [CallGetFollowUp o result] |}).
Proof.
  intros Hcall. simpl. unfold bind, callGetFollowUp. simpl. by rewrite Hcall.
Qed.

Lemma tryProviders_inv_throw (result : ChatResult) tok os :
  forall (w : World S) e w',
    tryProviders agent os result tok w = (Threw e, w') ->
    exists before thrower after s1 evs,
      os = before ++ thrower :: after
      /\ noFollowUpFrom agent result tok before (store w) evs s1
      /\ getFollowUpForLastHandledSlashCommand (owner agent thrower) result tok s1
         = (Threw e, store w').
Proof.
  induction os as [|o os IH]; intros w e w' Hrun; simpl in Hrun.
  - inversion Hrun.
  - unfold bind at 1, callGetFollowUp at 1 in Hrun.
    destruct (getFollowUpForLastHandledSlashCommand (owner agent o) result tok (store w))
      as [out s1] eqn:Hcall.
    destruct out as [[f|]|e1]; simpl in Hrun.
    + inversion Hrun.
    + apply IH in Hrun
        as (before & thrower & after & s2 & evs & -> & Hbefore & Hthrow).
      exists (o :: before), thrower, after, s2. eexists.
      split; [done|]. split; [|exact Hthrow].
      apply noFollowUpFrom_cons with (s1 := s1); [exact Hcall|exact Hbefore].
    + inversion Hrun; subst. exists [], o, os, (store w), [].
      split; [done|]. split; [constructor|done].
Qed.

Lemma tryProviders_consulted_prefix (result : ChatResult) tok os :
  forall w : World S, exists asked,
    trace (snd (tryProviders agent os result tok w))
      = trace w ++ map (fun o => CallGetFollowUp o result) asked
    /\ asked `prefix_of` os
    /\ (os <> [] -> asked <> []).
Proof.
  induction os as [|o os IH]; intros w.
  - exists []. split; [by rewrite app_nil_r|]. split; [by exists []|done].
  - simpl. unfold bind at 1, callGetFollowUp at 1.
    destruct (getFollowUpForLastHandledSlashCommand (owner agent o) result tok (store w))
      as [out s1].
    destruct out as [[f|]|e]; simpl.
    + exists [o]. split; [reflexivity|]. split; [by exists os|done].
    + destruct (IH {| store := s1; trace := trace w ++ [CallGetFollowUp o result] |})
        as (asked & Htr & Hpre & _).
      rewrite Htr. simpl. rewrite <- app_assoc.
      exists (o :: asked). split; [reflexivity|]. split; [by apply prefix_cons|done].
    + exists [o]. split; [reflexivity|]. split; [by exists os|done].
Qed.

(** X8. A provider that throws makes [followUpProvider] throw the same
    error; the providers after it are not asked and no empty list is
    substituted for the failure. *)
Theorem followUpProvider_throw_propagates (result : ChatResult) tok w
    before thrower after s1 evs e s2 :
  [hiddenOwner; benchmarker; visibleOwner] = before ++ thrower :: after ->
  noFollowUpFrom agent result tok before (store w) evs s1 ->
  getFollowUpForLastHandledSlashCommand (owner agent thrower) result tok s1
    = (Threw e, s2) ->
  followUpProvider agent result tok w
  = (Threw e,
     {| store := s2; trace := trace w ++ evs ++ [CallGetFollowUp thrower result] |})
  /\ consultedOwners (evs ++ [CallGetFollowUp thrower result]) = before ++ [thrower].
Proof.
  intros Hsplit Hbefore Hthrow. split.
  - unfold followUpProvider, providers. rewrite Hsplit.
    unfold bind at 1. destruct w as [s0 tr0]. simpl in Hbefore.
    rewrite (tryProviders_skip _ _ _ _ _ _ _ _ Hbefore).
    rewrite (tryProviders_throw _ _ _ _ _ _ _ _ Hthrow).
    simpl. by rewrite <- app_assoc.
  - rewrite consultedOwners_app.
    by rewrite (noFollowUpFrom_consulted _ _ _ _ _ _ _ Hbefore).
Qed.

(** X9. [followUpProvider] throws only when one of the owners' lookups
    does: the error is the one that lookup threw, every earlier owner had
    answered [undefined], and the store is as the failing lookup left it. *)
Theorem followUpProvider_throw_origin (result : ChatResult) tok w e w' :
  followUpProvider agent result tok w = (Threw e, w') ->
  exists before thrower after s1 evs,
    [hiddenOwner; benchmarker; visibleOwner] = before ++ thrower :: after
    /\ noFollowUpFrom agent result tok before (store w) evs s1
    /\ getFollowUpForLastHandledSlashCommand (owner agent thrower) result tok s1
       = (Threw e, store w').
Proof.
  unfold followUpProvider, providers. unfold bind at 1.
  destruct (tryProviders agent [hiddenOwner; benchmarker; visibleOwner] result tok w)
    as [[f|e1] w1] eqn:Hloop; simpl.
  - intros Hrun. inversion Hrun.
  - intros Hrun. inversion Hrun; subst.
    apply tryProviders_inv_throw in Hloop
      as (before & thrower & after & s1 & evs & Hsplit & Hbefore & Hthrow).
    exists before, thrower, after, s1, evs. by repeat split.
Qed.

(** X10. For every result and whatever the owners answer, the owners that
    are asked for follow-ups are the first one, two or three of hidden
    owner, benchmarker, user-visible owner, in that order, and the provider
    does nothing else that is observable. *)
Theorem followUpProvider_consults_in_order (result : ChatResult) tok w :
  exists n,
    (1 <= n <= 3)%nat
    /\ trace (snd (followUpProvider agent result tok w))
       = trace w ++ map (fun o => CallGetFollowUp o result)
                      (take n [hiddenOwner; benchmarker; visibleOwner]).
Proof.
  destruct (tryProviders_consulted_prefix result tok
              [hiddenOwner; benchmarker; visibleOwner] w)
    as (asked & Htr & Hpre & Hne).
  exists (length asked). split.
  - pose proof (prefix_length _ _ Hpre) as Hlen. simpl in Hlen.
    destruct asked as [|o asked]; [by destruct Hne|]. simpl in *. lia.
  - unfold followUpProvider, providers. unfold bind at 1.
    destruct (tryProviders agent [hiddenOwner; benchmarker; visibleOwner] result tok w)
      as [[f|e] w1]; unfold ret; cbn [snd fst trace] in *; rewrite Htr;
      destruct Hpre as [k Hk]; rewrite Hk; by rewrite take_app_length.
Qed.

End FollowUpFurther.

(** * Registration of the chat participant *)

Section RegistrationFacts.

Context {S : Type}.
Variables agentName agentDescription agentFullName : string.
Variable maxFollowUps : Z.
Variable agent : Agent S.

Lemma alter_last {A : Type} (f : A -> A) (l : list A) (x : A) :
  alter f (length l) (l ++ [x]) = l ++ [f x].
Proof.
  rewrite alter_app_r_alt by lia. by rewrite Nat.sub_diag.
Qed.

(** X11. When the chat API accepts the participant and the extension's URI
    can be read, exactly one participant is added, under [agentName] and
    with [handler] as its request handler; it has the description, the full
    name, the icon at resources/azure-color.svg under the extension's URI,
    [getCommands] and [followUpProvider] as providers, and it is sticky.
    Nothing is written to the console. *)
Theorem registerChatParticipant_configures (env : Registration.Environment)
    (h : Registration.ExtensionHost S) (u : Registration.Uri) :
  Registration.createFailure env = None ->
  Registration.extensionUri env = Returned u ->
  Registration.registerChatParticipant agentName agentDescription agentFullName
    maxFollowUps agent env h
  = (Returned tt,
     {| Registration.participants :=
          Registration.participants h
          ++ [{| Registration.id := agentName;
                 Registration.requestHandler := handler maxFollowUps agent;
                 Registration.description := Some agentDescription;
                 Registration.fullName := Some agentFullName;
                 Registration.iconPath :=
                   Some (Registration.joinPath u ["resources"; "azure-color.svg"]);
                 Registration.commandProvider := Some (getCommands agent);
                 Registration.followupProvider := Some (followUpProvider agent);
                 Registration.isSticky := Some true |}];
        Registration.console := Registration.console h |}).
Proof.
  intros Hcreate Huri.
  unfold Registration.registerChatParticipant, Registration.tryCatch,
    Registration.andThen, Registration.createChatParticipant,
    Registration.assignTo, Registration.extensionPath.
  rewrite Hcreate, Huri. simpl.
  by rewrite !alter_last.
Qed.


(** X12. When [createChatParticipant] fails, nothing is registered: the
    participants are as before, the error is logged to the console, and
    [registerChatParticipant] returns normally. *)
Theorem registerChatParticipant_without_chat_api (env : Registration.Environment)
    (h : Registration.ExtensionHost S) (e : Error) :
  Registration.createFailure env = Some e ->
  Registration.registerChatParticipant agentName agentDescription agentFullName
    maxFollowUps agent env h
  = (Returned tt,
     {| Registration.participants := Registration.participants h;
        Registration.console := Registration.console h ++ [e] |}).
Proof.
  intros Hcreate.
  unfold Registration.registerChatParticipant, Registration.tryCatch,
    Registration.andThen, Registration.createChatParticipant.
  by rewrite Hcreate.
Qed.


(** X13. When the participant is created but the extension's URI cannot be
    read, the failure is logged and swallowed, and the participant stays
    registered half configured: it has its handler, description and full
    name, but no icon, no command provider, no follow-up provider, and it
    is not marked sticky. *)
Theorem registerChatParticipant_without_icon (env : Registration.Environment)
    (h : Registration.ExtensionHost S) (e : Error) :
  Registration.createFailure env = None ->
  Registration.extensionUri env = Threw e ->
  Registration.registerChatParticipant agentName agentDescription agentFullName
    maxFollowUps agent env h
  = (Returned tt,
     {| Registration.participants :=
          Registration.participants h
          ++ [{| Registration.id := agentName;
                 Registration.requestHandler := handler maxFollowUps agent;
                 Registration.description := Some agentDescription;
                 Registration.fullName := Some agentFullName;
                 Registration.iconPath := None;
                 Registration.commandProvider := None;
                 Registration.followupProvider := None;
                 Registration.isSticky := None |}];
        Registration.console := Registration.console h ++ [e] |}).
Proof.
  intros Hcreate Huri.
  unfold Registration.registerChatParticipant, Registration.tryCatch,
    Registration.andThen, Registration.createChatParticipant,
    Registration.assignTo, Registration.extensionPath, Registration.consoleLog.
  rewrite Hcreate, Huri. simpl.
  by rewrite !alter_last.
Qed.


(** X14. [registerChatParticipant] never throws, whatever the environment
    does. The participants that existed are left as they were and at most
    one is added; the console gets at most one new entry, and it gets none
    exactly when the new participant is marked sticky. *)
Theorem registerChatParticipant_never_throws (env : Registration.Environment)
    (h : Registration.ExtensionHost S) :
  exists h',
    Registration.registerChatParticipant agentName agentDescription agentFullName
      maxFollowUps agent env h = (Returned tt, h')
    /\ Registration.participants h `prefix_of` Registration.participants h'
    /\ (length (Registration.participants h')
        <= Datatypes.S (length (Registration.participants h)))%nat
    /\ Registration.console h `prefix_of` Registration.console h'
    /\ (Registration.console h' = Registration.console h
        <-> exists p,
              Registration.participants h' !! length (Registration.participants h)
                = Some p
              /\ Registration.isSticky p = Some true).
Proof.
  unfold Registration.registerChatParticipant, Registration.tryCatch,
    Registration.andThen, Registration.createChatParticipant,
    Registration.assignTo, Registration.extensionPath, Registration.consoleLog.
  destruct (Registration.createFailure env) as [e|].
  - eexists. split; [reflexivity|]. simpl.
    split; [done|]. split; [lia|]. split; [by eexists|]. split.
    + intros Heq. apply (f_equal length) in Heq.
      rewrite length_app in Heq. simpl in Heq. lia.
    + intros (p & Hp & _). apply lookup_lt_Some in Hp. lia.
  - destruct (Registration.extensionUri env) as [u|e]; simpl;
      rewrite !alter_last.
    + eexists. split; [reflexivity|]. simpl.
      split; [by eexists|]. split; [rewrite length_app; simpl; lia|].
      split; [done|]. split; [|done].
      intros _. eexists. split.
      * rewrite lookup_app_r by lia. by rewrite Nat.sub_diag.
      * reflexivity.
    + eexists. split; [reflexivity|]. simpl.
      split; [by eexists|]. split; [rewrite length_app; simpl; lia|].
      split; [by eexists|]. split.
      * intros Heq. apply (f_equal length) in Heq.
        rewrite length_app in Heq. simpl in Heq. lia.
      * intros (p & Hp & Hsticky).
        rewrite lookup_app_r in Hp by lia. rewrite Nat.sub_diag in Hp.
        simpl in Hp. inversion Hp; subst. discriminate.
Qed.

End RegistrationFacts.

(** * The command maps built at load time *)

Section MapFacts.

Context {V : Type}.

Lemma JSMap_get_set (k k' : string) (v : V) (m : list (string * V)) :
  JSMap.get k (JSMap.set k' v m)
  = if decide (k' = k) then Some v else JSMap.get k m.
Proof.
  induction m as [|[k0 v0] m IH]; simpl.
  - by destruct (decide (k' = k)).
  - destruct (decide (k0 = k')) as [->|Hne]; simpl.
    + by destruct (decide (k' = k)).
    + destruct (decide (k0 = k)) as [->|Hne'].
      * by rewrite decide_False.
      * exact IH.
Qed.

Lemma JSMap_keys_set (k : string) (v : V) (m : list (string * V)) :
  JSMap.keys (JSMap.set k v m)
  = if decide (k ∈ JSMap.keys m) then JSMap.keys m else JSMap.keys m ++ [k].
Proof.
  unfold JSMap.keys.
  induction m as [|[k0 v0] m IH].
  - destruct (decide (k ∈ map fst ([] : list (string * V)))) as [Hin|_]; [|done].
    by apply elem_of_nil in Hin.
  - cbn [JSMap.set]. destruct (decide (k0 = k)) as [->|Hne].
    + destruct (decide (k ∈ map fst ((k, v0) :: m))) as [_|Hout]; [done|].
      destruct Hout. apply list_elem_of_here.
    + cbn [map fst]. rewrite IH.
      destruct (decide (k ∈ map fst m)) as [Hin|Hout];
        destruct (decide (k ∈ k0 :: map fst m)) as [Hin'|Hout']; try done.
      * destruct Hout'. by apply list_elem_of_further.
      * apply elem_of_cons in Hin' as [->|Hin']; done.
Qed.

Lemma JSMap_fromEntries_snoc (es : list (string * V)) (e : string * V) :
  JSMap.fromEntries (es ++ [e]) = JSMap.set (fst e) (snd e) (JSMap.fromEntries es).
Proof. unfold JSMap.fromEntries. by rewrite fold_left_app. Qed.

Lemma JSMap_fromEntries_keys (es : list (string * V)) :
  NoDup (JSMap.keys (JSMap.fromEntries es))
  /\ (forall k, k ∈ JSMap.keys (JSMap.fromEntries es) <-> k ∈ map fst es)
  /\ (length (JSMap.fromEntries es) <= length es)%nat.
Proof.
  induction es as [|e es IH] using rev_ind.
  - split; [constructor|]. split; [done|]. simpl. lia.
  - destruct IH as (Hnodup & Hkeys & Hlen).
    rewrite JSMap_fromEntries_snoc.
    assert (Hlenk : forall m : list (string * V), length m = length (JSMap.keys m)).
    { intros m. unfold JSMap.keys. by rewrite length_map. }
    rewrite (Hlenk (JSMap.set _ _ _)), JSMap_keys_set.
    rewrite map_app, length_app. simpl.
    destruct (decide (fst e ∈ JSMap.keys (JSMap.fromEntries es))) as [Hin|Hout].
    + split; [done|]. split.
      * intros k. rewrite elem_of_app, Hkeys. split; [by left|].
        intros [Hk|Hk]; [done|].
        apply list_elem_of_singleton in Hk. subst. by apply Hkeys.
      * rewrite <- Hlenk. lia.
    + split.
      * apply NoDup_app. split; [done|]. split; [|apply NoDup_singleton].
        intros k Hk Hk'. apply list_elem_of_singleton in Hk'. by subst.
      * split.
        -- intros k. rewrite !elem_of_app, Hkeys. done.
        -- rewrite length_app, <- Hlenk. simpl. lia.
Qed.

Lemma JSMap_get_fromEntries (es : list (string * V)) (k : string) :
  JSMap.get k (JSMap.fromEntries es)
  = snd <$> last (filter (fun e => fst e = k) es).
Proof.
  induction es as [|e es IH] using rev_ind; [done|].
  rewrite JSMap_fromEntries_snoc, JSMap_get_set, filter_app.
  destruct (decide (fst e = k)) as [Heq|Hne].
  - rewrite (filter_cons_True (fun e0 : string * V => fst e0 = k)) by done.
    by rewrite filter_nil, last_snoc.
  - rewrite (filter_cons_False (fun e0 : string * V => fst e0 = k)) by done.
    by rewrite filter_nil, app_nil_r.
Qed.

Lemma JSMap_fromEntries_distinct (es : list (string * V)) :
  NoDup (map fst es) -> JSMap.fromEntries es = es.
Proof.
  induction es as [|e es IH] using rev_ind; [done|].
  rewrite map_app. simpl. intros Hnodup.
  apply NoDup_app in Hnodup as (Hes & Hfresh & _).
  rewrite JSMap_fromEntries_snoc, (IH Hes).
  assert (Hout : fst e ∉ map fst es).
  { intros Hin. apply (Hfresh _ Hin). apply list_elem_of_here. }
  clear -Hout. induction es as [|[k0 v0] es IH]; simpl.
  - by destruct e.
  - rewrite decide_False.
    + f_equal. apply IH. intros Hin. apply Hout. simpl. by apply list_elem_of_further.
    + intros ->. apply Hout. simpl. apply list_elem_of_here.
Qed.

End MapFacts.

(** X15. Whatever the eight extensions call their top-level commands, the
    command map of the user-visible owner resolves the help command's name
    to the help command: it is entered last, so it wins every clash of
    names. The map never has two entries under one name, and it has at most
    nine entries. *)
Theorem agentSlashCommands_help_wins (ext : ExtensionCommands)
    (help : string * SlashCommandConfig) :
  JSMap.get (fst help) (agentSlashCommands ext help) = Some (snd help)
  /\ NoDup (JSMap.keys (agentSlashCommands ext help))
  /\ (length (agentSlashCommands ext help) <= 9)%nat.
Proof.
  unfold agentSlashCommands.
  destruct (JSMap_fromEntries_keys (agentSlashCommandEntries ext help))
    as (Hnodup & _ & Hlen).
  split; [|by split].
  rewrite JSMap_get_fromEntries.
  change (agentSlashCommandEntries ext help)
    with ([appService ext; containerApps ext; databasesCosmosDb ext;
           databasesPostgreSQL ext; functions ext; staticWebApps ext; storage ext;
           virtualMachines ext] ++ [help]).
  rewrite filter_app.
  rewrite (filter_cons_True (fun e : string * SlashCommandConfig => fst e = fst help)
             help) by done.
  by rewrite filter_nil, last_snoc.
Qed.

(** X16. A name in the command map of the user-visible owner stands for the
    last entry of the array literal that carries it: of two commands with
    the same name the earlier one is dropped, and the later one takes its
    place in the map. *)
Theorem agentSlashCommands_last_entry_wins (ext : ExtensionCommands)
    (help : string * SlashCommandConfig) (k : string) :
  JSMap.get k (agentSlashCommands ext help)
  = snd <$> last (filter (fun e => fst e = k) (agentSlashCommandEntries ext help)).
Proof. apply JSMap_get_fromEntries. Qed.

(** X17. The command map of the user-visible owner consists of the nine
    commands of the array literal, in the order written (extensions first,
    help last), exactly when their nine names are pairwise different. *)
Theorem agentSlashCommands_nine_iff_distinct (ext : ExtensionCommands)
    (help : string * SlashCommandConfig) :
  agentSlashCommands ext help = agentSlashCommandEntries ext help
  <-> NoDup (map fst (agentSlashCommandEntries ext help)).
Proof.
  split.
  - intros Heq.
    destruct (JSMap_fromEntries_keys (agentSlashCommandEntries ext help))
      as (Hnodup & _ & _).
    unfold agentSlashCommands in Heq. rewrite Heq in Hnodup. exact Hnodup.
  - apply JSMap_fromEntries_distinct.
Qed.

(** * The further properties at work *)

(** X1 at work: the hidden owner is silent, the benchmarker fails; the
    user-visible owner, which would answer, is not called. *)
Lemma handler_owner_throw_propagates_witness :
  fst (handler 3 MoreSamples.failingAgent Samples.someRequest Samples.noContext
         Samples.liveToken Samples.emptyWorld) = Threw (UserError "boom")
  /\ store (snd (handler 3 MoreSamples.failingAgent Samples.someRequest
                   Samples.noContext Samples.liveToken Samples.emptyWorld))
     = store Samples.emptyWorld.
Proof.
  destruct (handler_owner_throw_propagates 3 MoreSamples.failingAgent
              Samples.someRequest Samples.noContext Samples.liveToken
              Samples.emptyWorld [hiddenOwner] benchmarker [visibleOwner]
              (store Samples.emptyWorld)
              [CallHandleRequestOrPrompt hiddenOwner
                 (agentRequestOf Samples.someRequest Samples.noContext
                    Samples.liveToken) []]
              (UserError "boom") [] (store Samples.emptyWorld)) as [Hrun _].
  - reflexivity.
  - apply (unresolvedBy_cons MoreSamples.failingAgent _ hiddenOwner []
             (store Samples.emptyWorld) [] (store Samples.emptyWorld) []
             (store Samples.emptyWorld)).
    + reflexivity.
    + apply unresolvedBy_nil.
  - reflexivity.
  - rewrite Hrun. split; reflexivity.
Defined.


(** X3 at work: the result object that was already in the heap at
    reference 5 is still there, with its five follow-ups, after a turn that
    trimmed the object at reference 0. *)
Lemma handler_touches_only_followUp_witness :
  heap (store (snd (handler 3 Samples.benchmarkAgent Samples.someRequest
                      Samples.noContext Samples.liveToken MoreSamples.busyWorld)))
    !! 5%nat = Some Samples.chattyResult.
Proof.
  destruct (handler_touches_only_followUp 3 Samples.benchmarkAgent Samples.someRequest
              Samples.noContext Samples.liveToken MoreSamples.busyWorld
              [hiddenOwner] benchmarker [visibleOwner]
              (store MoreSamples.busyWorld)
              [CallHandleRequestOrPrompt hiddenOwner
                 (agentRequestOf Samples.someRequest Samples.noContext
                    Samples.liveToken) []]
              0%nat [Wrote (vscode.markdown "done")]
              {| heap := <[0%nat := Samples.chattyResult]>
                           (heap (store MoreSamples.busyWorld));
                 priv := tt |}
              Samples.chattyResult) as (Hframe & _ & _).
  - reflexivity.
  - apply (unresolvedBy_cons Samples.benchmarkAgent _ hiddenOwner []
             (store MoreSamples.busyWorld) [] (store MoreSamples.busyWorld) []
             (store MoreSamples.busyWorld)).
    + reflexivity.
    + apply unresolvedBy_nil.
  - reflexivity.
  - vm_compute. reflexivity.
  - etransitivity; [apply (Hframe 5%nat); lia|]. vm_compute. reflexivity.
Defined.

(** X4 at work: two follow-ups under a maximum of three are left alone. *)
Lemma handler_short_followUp_untouched_witness :
  store (snd (handler 3 MoreSamples.terseAgent Samples.someRequest Samples.noContext
                Samples.liveToken Samples.emptyWorld))
  = {| heap := <[0%nat := MoreSamples.terseResult]> ∅; priv := tt |}.
Proof.
  apply (handler_short_followUp_untouched 3 MoreSamples.terseAgent Samples.someRequest
           Samples.noContext Samples.liveToken Samples.emptyWorld
           [] hiddenOwner [benchmarker; visibleOwner]
           (store Samples.emptyWorld) [] 0%nat []
           {| heap := <[0%nat := MoreSamples.terseResult]> ∅; priv := tt |}
           MoreSamples.terseResult).
  - reflexivity.
  - apply unresolvedBy_nil.
  - reflexivity.
  - vm_compute. reflexivity.
  - intros fs Hfs. vm_compute in Hfs. inversion Hfs. simpl. lia.
Defined.

(** X5 at work: with a maximum of -2, the last two of five follow-ups are
    dropped. *)
Lemma handler_followUp_any_maximum_witness :
  exists obj',
    heap (store (snd (handler (-2) Samples.benchmarkAgent Samples.someRequest
                        Samples.noContext Samples.liveToken Samples.emptyWorld)))
      !! 0%nat = Some obj'
    /\ followUp obj' = Some (take 3 Samples.fiveFollowUps).
Proof.
  destruct (handler_followUp_any_maximum (-2) Samples.benchmarkAgent
              Samples.someRequest Samples.noContext Samples.liveToken
              Samples.emptyWorld [hiddenOwner] benchmarker [visibleOwner]
              (store Samples.emptyWorld)
              [CallHandleRequestOrPrompt hiddenOwner
                 (agentRequestOf Samples.someRequest Samples.noContext
                    Samples.liveToken) []]
              0%nat [Wrote (vscode.markdown "done")]
              {| heap := <[0%nat := Samples.chattyResult]> ∅; priv := tt |}
              Samples.chattyResult) as (obj' & Hheap & Hkept & _).
  - reflexivity.
  - apply (unresolvedBy_cons Samples.benchmarkAgent _ hiddenOwner []
             (store Samples.emptyWorld) [] (store Samples.emptyWorld) []
             (store Samples.emptyWorld)).
    + reflexivity.
    + apply unresolvedBy_nil.
  - reflexivity.
  - vm_compute. reflexivity.
  - exists obj'. split; [exact Hheap|exact Hkept].
Defined.

(** X8 at work: the benchmarker's lookup fails after the hidden owner had
    nothing; the failure comes out of the provider. *)
Lemma followUpProvider_throw_propagates_witness :
  fst (followUpProvider MoreSamples.failingAgent Samples.plainResult
         Samples.liveToken Samples.emptyWorld) = Threw (UserError "boom").
Proof.
  destruct (followUpProvider_throw_propagates MoreSamples.failingAgent
              Samples.plainResult Samples.liveToken Samples.emptyWorld
              [hiddenOwner] benchmarker [visibleOwner]
              (store Samples.emptyWorld)
              [CallGetFollowUp hiddenOwner Samples.plainResult]
              (UserError "boom") (store Samples.emptyWorld)) as [Hrun _].
  - reflexivity.
  - apply (noFollowUpFrom_cons MoreSamples.failingAgent _ _ hiddenOwner []
             (store Samples.emptyWorld) (store Samples.emptyWorld) []
             (store Samples.emptyWorld)); [reflexivity|].
    apply noFollowUpFrom_nil.
  - reflexivity.
  - by rewrite Hrun.
Defined.

(** X9 at work: the failure of the provider is traced back to an owner. *)
Lemma followUpProvider_throw_origin_witness :
  exists before thrower after s1 evs,
    [hiddenOwner; benchmarker; visibleOwner] = before ++ thrower :: after
    /\ noFollowUpFrom MoreSamples.failingAgent Samples.plainResult Samples.liveToken
         before (store Samples.emptyWorld) evs s1
    /\ getFollowUpForLastHandledSlashCommand (owner MoreSamples.failingAgent thrower)
         Samples.plainResult Samples.liveToken s1
       = (Threw (UserError "boom"),
          store (snd (followUpProvider MoreSamples.failingAgent Samples.plainResult
                        Samples.liveToken Samples.emptyWorld))).
Proof.
  apply (followUpProvider_throw_origin MoreSamples.failingAgent
           Samples.plainResult Samples.liveToken Samples.emptyWorld
           (UserError "boom")
           (snd (followUpProvider MoreSamples.failingAgent Samples.plainResult
                   Samples.liveToken Samples.emptyWorld))).
  vm_compute. reflexivity.
Defined.

(** X11 at work: in a healthy environment one sticky participant is there. *)
Lemma registerChatParticipant_configures_witness :
  Registration.isSticky
    <$> Registration.participants
          (snd (Registration.registerChatParticipant "azure" "Azure agent"
                  "Azure" 3 Samples.benchmarkAgent MoreSamples.healthy
                  MoreSamples.emptyHost)) !! 0%nat
  = Some (Some true).
Proof.
  rewrite (registerChatParticipant_configures "azure" "Azure agent" "Azure" 3
             Samples.benchmarkAgent MoreSamples.healthy MoreSamples.emptyHost
             MoreSamples.extensionRoot).
  - reflexivity.
  - reflexivity.
  - reflexivity.
Defined.

(** X12 at work: without the chat API nothing is registered and one error
    is logged. *)
Lemma registerChatParticipant_without_chat_api_witness :
  Registration.registerChatParticipant "azure" "Azure agent" "Azure" 3
    Samples.benchmarkAgent MoreSamples.withoutChatApi MoreSamples.emptyHost
  = (Returned tt,
     {| Registration.participants := [];
        Registration.console := [TypeError "createChatParticipant"] |}).
Proof.
  apply (registerChatParticipant_without_chat_api "azure" "Azure agent" "Azure" 3
           Samples.benchmarkAgent MoreSamples.withoutChatApi MoreSamples.emptyHost
           (TypeError "createChatParticipant")).
  reflexivity.
Defined.

(** X13 at work: without the extension context the participant is there but
    has no command provider and is not sticky. *)
Lemma registerChatParticipant_without_icon_witness :
  (fun p => (Registration.isSticky p, Registration.description p))
    <$> Registration.participants
          (snd (Registration.registerChatParticipant "azure" "Azure agent"
                  "Azure" 3 Samples.benchmarkAgent MoreSamples.withoutContext
                  MoreSamples.emptyHost)) !! 0%nat
  = Some (None, Some "Azure agent").
Proof.
  rewrite (registerChatParticipant_without_icon "azure" "Azure agent" "Azure" 3
             Samples.benchmarkAgent MoreSamples.withoutContext MoreSamples.emptyHost
             (TypeError "extensionUri")).
  - reflexivity.
  - reflexivity.
  - reflexivity.
Defined.

(** X17 at work: nine different names give the nine commands in the order
    written; with two extensions under the name "storage" one entry is
    lost. *)
Lemma agentSlashCommands_nine_iff_distinct_witness :
  agentSlashCommands MoreSamples.distinctExtensions (MoreSamples.entry "help" "Help")
  = agentSlashCommandEntries MoreSamples.distinctExtensions
      (MoreSamples.entry "help" "Help")
  /\ agentSlashCommands MoreSamples.clashingExtensions (MoreSamples.entry "help" "Help")
     <> agentSlashCommandEntries MoreSamples.clashingExtensions
          (MoreSamples.entry "help" "Help").
Proof.
  split.
  - apply (proj2 (agentSlashCommands_nine_iff_distinct MoreSamples.distinctExtensions
                    (MoreSamples.entry "help" "Help"))).
    apply (bool_decide_unpack _). vm_compute. reflexivity.
  - intros Heq.
    apply (proj1 (agentSlashCommands_nine_iff_distinct MoreSamples.clashingExtensions
                    (MoreSamples.entry "help" "Help"))) in Heq.
    revert Heq. apply (bool_decide_unpack _). vm_compute. reflexivity.
Defined.
